(** * DreamBooth training script: a shallow embedding of
    [examples/dreambooth/train_dreambooth.py] and the properties of its
    orchestration core.

    Conventions.  Python [int] is [Z]; Python [str] is [string] (code
    points below 256); real-valued tensors are lists of rationals, one inner list per
    example of the batch (the channel and spatial dimensions flattened);
    exceptions are the [Raise] branch of [result]; the file system, the model
    weights and the subprocess calls of [main] are an explicit [World] that
    is threaded through the training loop together with a trace of events. *)

From Stdlib Require Import ZArith QArith List String Ascii Bool Lia Arith ZifyNat.
From Stdlib Require Import DecimalString DecimalZ.
Import ListNotations.

Set Warnings "-register-all".

Open Scope string_scope.

(** ** Python strings *)

Module PyStr.

Definition comma : ascii := ","%char.

(** [str.isdigit] on the code points below 256: the decimal digits and the
    superscripts two, three and one (178, 179, 185). *)
Definition isdigit (c : ascii) : bool :=
  let n := nat_of_ascii c in
  (48 <=? n)%nat && (n <=? 57)%nat
  || (n =? 178)%nat || (n =? 179)%nat || (n =? 185)%nat.

(** [''.join([i for i in s if f i])] *)
Fixpoint filter (f : ascii -> bool) (s : string) : string :=
  match s with
  | EmptyString => EmptyString
  | String c r => if f c then String c (filter f r) else filter f r
  end.

(** [s.replace(old, new)] for a non-empty [old]: occurrences are found
    from the left and do not overlap.  [skip] counts the characters of
    the occurrence under the cursor that are still to be dropped. *)
Fixpoint replace_aux (old new : string) (skip : nat) (s : string) : string :=
  match s with
  | EmptyString => EmptyString
  | String c r =>
      match skip with
      | S k => replace_aux old new k r
      | O =>
          if prefix old s
          then new ++ replace_aux old new (String.length old - 1) r
          else String c (replace_aux old new 0 r)
      end
  end.

(** With an empty [old] Python puts [new] around every character. *)
Fixpoint intersperse (new s : string) : string :=
  match s with
  | EmptyString => new
  | String c r => new ++ String c (intersperse new r)
  end.

Definition replace (old new s : string) : string :=
  match old with
  | EmptyString => intersperse new s
  | _ => replace_aux old new 0 s
  end.

(** [str(n)] for an [int]. *)
Definition str (n : Z) : string := NilZero.string_of_int (Z.to_int n).

(** Index of the last ["."] of a name ([name.rfind('.')]). *)
Fixpoint rfind_dot (s : string) : option nat :=
  match s with
  | EmptyString => None
  | String c r =>
      match rfind_dot r with
      | Some i => Some (S i)
      | None => if Ascii.eqb c "."%char then Some O else None
      end
  end.

(** [Path(name).stem] for a name without a slash: the name without its
    last suffix; a leading or a trailing dot does not start a suffix, and
    ["."] is no name at all. *)
Definition stem (name : string) : string :=
  if String.eqb name "." then "" else
  match rfind_dot name with
  | Some i =>
      if (0 <? i)%nat && (i <? String.length name - 1)%nat
      then substring 0 i name
      else name
  | None => name
  end.

(** Length of the run of commas a string starts with, and the longest run
    of commas anywhere in it. *)
Fixpoint lead_commas (s : string) : nat :=
  match s with
  | EmptyString => O
  | String c r => if Ascii.eqb c comma then S (lead_commas r) else O
  end.

Fixpoint max_comma_run (s : string) : nat :=
  match s with
  | EmptyString => O
  | String c r => Nat.max (lead_commas s) (max_comma_run r)
  end.

(** Membership of a character. *)
Fixpoint mem (a : ascii) (s : string) : bool :=
  match s with
  | EmptyString => false
  | String c r => Ascii.eqb a c || mem a r
  end.

Fixpoint any (f : ascii -> bool) (s : string) : bool :=
  match s with
  | EmptyString => false
  | String c r => f c || any f r
  end.

End PyStr.

(** ** Prompt derived from a file name
    ([SubfolderModeDataset.__getitem__], [DreamBoothDataset.__getitem__]) *)

(** The part both data sets share: digits out, ["_"] to a space,
    parentheses and hyphens out. *)
Definition filename_prompt (filename : string) : string :=
  let pt := PyStr.filter (fun i => negb (PyStr.isdigit i)) filename in
  let pt := PyStr.replace "_" " " pt in
  let pt := PyStr.replace "(" "" pt in
  let pt := PyStr.replace ")" "" pt in
  let pt := PyStr.replace "-" "" pt in
  pt.

(** [SubfolderModeDataset]: three more passes that replace [",,"] by [","]. *)
Definition SubfolderModeDataset_instance_prompt (filename : string) : string :=
  let pt := filename_prompt filename in
  let pt :=
    PyStr.replace ",," "," (PyStr.replace ",," "," (PyStr.replace ",," "," pt)) in
  pt.

(** [DreamBoothDataset]: the fixed instance prompt, or the file-name prompt
    (without the comma passes) when [image_captions_filename] is set. *)
Definition DreamBoothDataset_instance_prompt
    (instance_prompt : string) (image_captions_filename : bool)
    (filename : string) : string :=
  if image_captions_filename then filename_prompt filename else instance_prompt.

(** ** Exceptions *)

Inductive Exception : Type :=
| ValueError (msg : string)
| KeyError (key : string)
| TypeError
| IndexError
| ZeroDivisionError
| RuntimeError
| NotADirectoryError
| FileExistsError
| JSONDecodeError
| UnboundLocalError
| OverflowError.

Inductive result (A : Type) : Type :=
| Ok (a : A)
| Raise (e : Exception).

Arguments Ok {A} a.
Arguments Raise {A} e.

Definition bind {A B : Type} (r : result A) (k : A -> result B) : result B :=
  match r with
  | Ok a => k a
  | Raise e => Raise e
  end.

Notation "x <- r ;; k" := (bind r (fun x => k))
  (at level 61, r at next level, right associativity).
Notation "' p <- r ;; k" := (bind r (fun p => k))
  (at level 61, p pattern, r at next level, right associativity).

Definition raises {A : Type} (r : result A) : Prop :=
  exists e, r = Raise e.

Definition is_ok {A : Type} (r : result A) : bool :=
  match r with Ok _ => true | Raise _ => false end.

(** ** Directory trees *)

(** What [iterdir] shows of a directory: named entries that are plain
    files or directories. *)
Inductive Node : Type :=
| File
| Dir (entries : list (string * Node)).

Definition is_dir (x : string * Node) : bool :=
  match snd x with Dir _ => true | File => false end.

Definition entries_of (x : string * Node) : list (string * Node) :=
  match snd x with Dir l => l | File => [] end.

Definition join (parent name : string) : string := parent ++ "/" ++ name.

Fixpoint lookup {A : Type} (key : string) (d : list (string * A)) : option A :=
  match d with
  | [] => None
  | (k, v) :: r => if String.eqb key k then Some v else lookup key r
  end.

(** [d[key] = v] on a [dict]: an existing key keeps its place. *)
Fixpoint dict_set {A : Type} (key : string) (v : A) (d : list (string * A))
  : list (string * A) :=
  match d with
  | [] => [(key, v)]
  | (k, w) :: r =>
      if String.eqb key k then (k, v) :: r else (k, w) :: dict_set key v r
  end.

(** ** ClassDataProvider *)

Record ClassDataProvider : Type := mkProvider {
  class_prompt : string;
  class_images : list string;
  cursor : nat
}.

(** [ClassDataProvider.__init__].  [class_data_root] is the path of the
    root and [root] its entries.  A missing [root/class_prompt] is created
    empty by [mkdir(parents=True, exist_ok=True)], so it lists nothing; a
    plain file of that name makes [mkdir] raise. *)
Definition ClassDataProvider_init
    (class_data_root : string) (root : list (string * Node))
    (prompt : string) : result ClassDataProvider :=
  let class_data_dir := join class_data_root prompt in
  listing <-
    match lookup prompt root with
    | None => Ok []
    | Some (Dir l) => Ok l
    | Some File => Raise FileExistsError
    end ;;
  let images :=
    map (fun x => join class_data_dir (fst x))
        (List.filter (fun x => negb (is_dir x)) listing) in
  if (List.length images <=? 0)%nat
  then Raise (ValueError ("Empty class directory: " ++ class_data_dir))
  else Ok (mkProvider prompt images 0).

(** [ClassDataProvider.take_one]: the path under the cursor; the cursor
    moves on by one, modulo the number of images. *)
Definition take_one (p : ClassDataProvider)
  : result (string * ClassDataProvider) :=
  match nth_error (class_images p) (cursor p) with
  | None => Raise IndexError
  | Some r =>
      Ok (r, mkProvider (class_prompt p) (class_images p)
                        ((cursor p + 1) mod List.length (class_images p)))
  end.

(** [n] calls of [take_one] in a row: what they returned, in order, and the
    provider they leave. *)
Fixpoint take_many (n : nat) (p : ClassDataProvider)
  : result (list string * ClassDataProvider) :=
  match n with
  | O => Ok ([], p)
  | S m =>
      ' (r, p1) <- take_one p ;;
      ' (rs, p2) <- take_many m p1 ;;
      Ok (r :: rs, p2)
  end.

(** ** SubfolderModeDataset *)

Record SubfolderModeDataset : Type := mkSubfolderDataset {
  classes : list (string * ClassDataProvider);
  instance_images_path : list string;
  num_instance_images : nat
}.

(** The body of [for class_subdir in class_subdirs]: one provider per class
    sub-folder, then the images of its group sub-folders (at most five of
    them). *)
Fixpoint scan_class_subdirs
    (instance_data_root class_data_root : string)
    (class_root : list (string * Node))
    (class_subdirs : list (string * Node))
    (acc : list (string * ClassDataProvider) * list string)
  : result (list (string * ClassDataProvider) * list string) :=
  match class_subdirs with
  | [] => Ok acc
  | class_subdir :: rest =>
      let name := fst class_subdir in
      p <- ClassDataProvider_init class_data_root class_root name ;;
      let classes := dict_set name p (fst acc) in
      let instance_images_dirs := List.filter is_dir (entries_of class_subdir) in
      images <-
        (if (0 <? List.length instance_images_dirs)%nat
         then
           if (5 <? List.length instance_images_dirs)%nat
           then Raise (ValueError
                  ("Instance image directories ("
                   ++ PyStr.str (Z.of_nat (List.length instance_images_dirs))
                   ++ ") exceed memory limit."))
           else
             Ok (flat_map
                   (fun instance_images_dir =>
                      map (fun x =>
                             join (join (join instance_data_root name)
                                        (fst instance_images_dir)) (fst x))
                          (List.filter (fun x => negb (is_dir x))
                                       (entries_of instance_images_dir)))
                   instance_images_dirs)
         else Ok []) ;;
      scan_class_subdirs instance_data_root class_data_root class_root rest
        (classes, (snd acc ++ images)%list)
  end.

(** [SubfolderModeDataset.__init__].  [root] is [None] when the instance
    root does not exist. *)
Definition SubfolderModeDataset_init
    (instance_data_root : string) (root : option Node)
    (class_data_root : string) (class_root : list (string * Node))
  : result SubfolderModeDataset :=
  match root with
  | None => Raise (ValueError "Instance images root doesn't exists.")
  | Some File => Raise NotADirectoryError
  | Some (Dir entries) =>
      let class_subdirs := List.filter is_dir entries in
      if (List.length class_subdirs <=? 0)%nat
      then Raise (ValueError
             "Instance image root directory does not have any class subfolders.")
      else if (3 <? List.length class_subdirs)%nat
      then Raise (ValueError
             ("Class subfolders ("
              ++ PyStr.str (Z.of_nat (List.length class_subdirs))
              ++ ") exceed memory limit."))
      else
        ' (classes, paths) <-
          scan_class_subdirs instance_data_root class_data_root class_root
            class_subdirs ([], []) ;;
        Ok (mkSubfolderDataset classes paths (List.length paths))
  end.

(** ** Batches ([collate_fn]) *)

(** A pixel tensor of one image, its values flattened. *)
Definition Pixels : Type := list Q.

(** The [example] dict of [__getitem__]; the two class keys are there only
    when the data set was built with class images. *)
Record Example : Type := mkExample {
  instance_images : Pixels;
  instance_prompt_ids : list Z;
  class_images_of : option Pixels;
  class_prompt_ids : option (list Z)
}.

Record Batch : Type := mkBatch {
  input_ids : list (list Z);
  pixel_values : list Pixels
}.

(** [example[key]] for a key that may be missing. *)
Definition getitem {A : Type} (key : string) (v : option A) : result A :=
  match v with
  | Some a => Ok a
  | None => Raise (KeyError key)
  end.

Fixpoint mapM {A B : Type} (f : A -> result B) (l : list A) : result (list B) :=
  match l with
  | [] => Ok []
  | x :: r => y <- f x ;; ys <- mapM f r ;; Ok (y :: ys)
  end.

(** [torch.stack]: needs at least one tensor, all of one shape. *)
Definition torch_stack (l : list Pixels) : result (list Pixels) :=
  match l with
  | [] => Raise RuntimeError
  | x :: r =>
      if forallb (fun y => (List.length y =? List.length x)%nat) r
      then Ok l
      else Raise RuntimeError
  end.

Definition longest (ids : list (list Z)) : nat :=
  fold_right (fun l m => Nat.max (List.length l) m) 0%nat ids.

(** [tokenizer.pad(..., padding=True)]: every sequence is filled on the
    right with the pad token up to the longest one of the batch. *)
Definition tokenizer_pad (pad_token_id : Z) (ids : list (list Z))
  : list (list Z) :=
  let n := longest ids in
  map (fun l => (l ++ repeat pad_token_id (n - List.length l))%list) ids.

Definition collate_fn
    (with_prior_preservation : bool) (pad_token_id : Z)
    (examples : list Example) : result Batch :=
  let input_ids := map instance_prompt_ids examples in
  let pixel_values := map instance_images examples in
  ' (input_ids, pixel_values) <-
    (if with_prior_preservation
     then
       class_ids <- mapM (fun e => getitem "class_prompt_ids" (class_prompt_ids e))
                         examples ;;
       class_pixels <- mapM (fun e => getitem "class_images" (class_images_of e))
                            examples ;;
       Ok ((input_ids ++ class_ids)%list, (pixel_values ++ class_pixels)%list)
     else Ok (input_ids, pixel_values)) ;;
  pixel_values <- torch_stack pixel_values ;;
  let input_ids := tokenizer_pad pad_token_id input_ids in
  Ok (mkBatch input_ids pixel_values).

(** ** Loss of a training step *)

(** A tensor with a batch dimension: one flattened example per entry. *)
Definition Tensor : Type := list (list Q).

Definition qsum (l : list Q) : Q := fold_right Qplus 0%Q l.

(** [t.mean()]: the sum over the number of elements. *)
Definition mean (l : list Q) : Q :=
  (qsum l / inject_Z (Z.of_nat (List.length l)))%Q.

Definition sqdiff (a b : Q) : Q := ((a - b) * (a - b))%Q.

Fixpoint map2 {A B C : Type} (f : A -> B -> C) (x : list A) (y : list B)
  : list C :=
  match x, y with
  | a :: x', b :: y' => f a b :: map2 f x' y'
  | _, _ => []
  end.

(** [F.mse_loss(x, y, reduction="none")] *)
Definition mse_none (x y : Tensor) : Tensor := map2 (map2 sqdiff) x y.

(** [F.mse_loss(x, y, reduction="mean")]: the mean over every element. *)
Definition mse_mean (x y : Tensor) : Q := mean (List.concat (mse_none x y)).

(** [t.mean([1, 2, 3])]: one mean per example. *)
Definition mean_per_example (t : Tensor) : list Q := map mean t.

(** [t.split(split_size, dim=0)] *)
Fixpoint torch_split {A : Type} (fuel split_size : nat) (t : list A)
  : list (list A) :=
  match fuel with
  | O => []
  | S f =>
      match t with
      | [] => []
      | _ => firstn split_size t :: torch_split f split_size (skipn split_size t)
      end
  end.

(** [torch.chunk(t, chunks, dim=0)]: pieces of [ceil(n / chunks)] entries,
    the last one shorter when [n] is not a multiple, and maybe fewer than
    [chunks] pieces; an empty tensor gives [chunks] empty pieces. *)
Definition torch_chunk {A : Type} (t : list A) (chunks : nat) : list (list A) :=
  let n := List.length t in
  let split_size := ((n + chunks - 1) / chunks)%nat in
  if (n =? 0)%nat then repeat [] chunks
  else torch_split n split_size t.

(** [a, b = torch.chunk(t, 2, dim=0)] *)
Definition chunk_pair {A : Type} (t : list A) : result (list A * list A) :=
  match torch_chunk t 2 with
  | [a; b] => Ok (a, b)
  | [] => Raise (ValueError "not enough values to unpack (expected 2, got 0)")
  | [_] => Raise (ValueError "not enough values to unpack (expected 2, got 1)")
  | _ => Raise (ValueError "too many values to unpack (expected 2)")
  end.

(** Lines 901-915 of [main]. *)
Definition training_loss
    (with_prior_preservation : bool) (prior_loss_weight : Q)
    (noise_pred noise : Tensor) : result Q :=
  if with_prior_preservation then
    ' (noise_pred, noise_pred_prior) <- chunk_pair noise_pred ;;
    ' (noise, noise_prior) <- chunk_pair noise ;;
    let loss := mean (mean_per_example (mse_none noise_pred noise)) in
    let prior_loss := mse_mean noise_pred_prior noise_prior in
    Ok (loss + prior_loss_weight * prior_loss)%Q
  else Ok (mse_mean noise_pred noise).

(** ** Command-line arguments and the start of [main] *)

Record Args : Type := mkArgs {
  subfolder_mode : bool;
  save_intermediary_dirs : Z;
  diffusers_to_ckpt_script_path : string;
  with_prior_preservation : bool;
  prior_loss_weight : Q;
  output_dir : string;
  seed : option Z;
  train_text_encoder : bool;
  num_train_epochs : Z;
  max_train_steps : option Z;
  gradient_accumulation_steps : Z;
  save_n_steps : Z;
  save_starting_step : Z;
  stop_text_encoder_training : Z;
  image_captions_filename : bool;
  Session_dir : string;
  not_cache_latents : bool
}.

Definition set_seed (v : option Z) (a : Args) : Args :=
  mkArgs (subfolder_mode a) (save_intermediary_dirs a)
    (diffusers_to_ckpt_script_path a) (with_prior_preservation a)
    (prior_loss_weight a) (output_dir a) v (train_text_encoder a)
    (num_train_epochs a) (max_train_steps a) (gradient_accumulation_steps a)
    (save_n_steps a) (save_starting_step a) (stop_text_encoder_training a)
    (image_captions_filename a) (Session_dir a) (not_cache_latents a).

Definition set_image_captions_filename (v : bool) (a : Args) : Args :=
  mkArgs (subfolder_mode a) (save_intermediary_dirs a)
    (diffusers_to_ckpt_script_path a) (with_prior_preservation a)
    (prior_loss_weight a) (output_dir a) (seed a) (train_text_encoder a)
    (num_train_epochs a) (max_train_steps a) (gradient_accumulation_steps a)
    (save_n_steps a) (save_starting_step a) (stop_text_encoder_training a)
    v (Session_dir a) (not_cache_latents a).

Definition set_with_prior_preservation (v : bool) (a : Args) : Args :=
  mkArgs (subfolder_mode a) (save_intermediary_dirs a)
    (diffusers_to_ckpt_script_path a) v
    (prior_loss_weight a) (output_dir a) (seed a) (train_text_encoder a)
    (num_train_epochs a) (max_train_steps a) (gradient_accumulation_steps a)
    (save_n_steps a) (save_starting_step a) (stop_text_encoder_training a)
    (image_captions_filename a) (Session_dir a) (not_cache_latents a).

Definition set_prior_loss_weight (v : Q) (a : Args) : Args :=
  mkArgs (subfolder_mode a) (save_intermediary_dirs a)
    (diffusers_to_ckpt_script_path a) (with_prior_preservation a)
    v (output_dir a) (seed a) (train_text_encoder a)
    (num_train_epochs a) (max_train_steps a) (gradient_accumulation_steps a)
    (save_n_steps a) (save_starting_step a) (stop_text_encoder_training a)
    (image_captions_filename a) (Session_dir a) (not_cache_latents a).

Definition set_train_text_encoder (v : bool) (a : Args) : Args :=
  mkArgs (subfolder_mode a) (save_intermediary_dirs a)
    (diffusers_to_ckpt_script_path a) (with_prior_preservation a)
    (prior_loss_weight a) (output_dir a) (seed a) v
    (num_train_epochs a) (max_train_steps a) (gradient_accumulation_steps a)
    (save_n_steps a) (save_starting_step a) (stop_text_encoder_training a)
    (image_captions_filename a) (Session_dir a) (not_cache_latents a).

(** What the execution backend tells this process: whether it is the main
    one, how many there are, and [len(train_dataloader)] once prepared. *)
Record Env : Type := mkEnv {
  is_main_process : bool;
  num_processes : Z;
  dataloader_len : nat
}.

(** Lines 599-601: a missing or zero seed becomes 1337. *)
Definition default_seed (a : Args) : Args :=
  match seed a with
  | None => set_seed (Some 1337%Z) a
  | Some s => if (s =? 0)%Z then set_seed (Some 1337%Z) a else a
  end.

(** Lines 603-606. *)
Definition subfolder_overrides (a : Args) : Args :=
  if subfolder_mode a
  then set_prior_loss_weight 1%Q
         (set_with_prior_preservation true
            (set_image_captions_filename true a))
  else a.

(** Lines 615-616. *)
Definition text_encoder_switch (a : Args) : Args :=
  if (stop_text_encoder_training a <=? 1)%Z
  then set_train_text_encoder false a
  else a.

(** Lines 597-625 of [main]: the arguments as the rest of the run sees
    them, and [i], the step of the first periodic export. *)
Definition main_prelude (args : Args) (env : Env) : result (Args * Z) :=
  let i := save_starting_step args in
  let args := text_encoder_switch (subfolder_overrides (default_seed args)) in
  if train_text_encoder args
     && (1 <? gradient_accumulation_steps args)%Z
     && (1 <? num_processes env)%Z
  then Raise (ValueError
    ("Gradient accumulation is not supported when training the text encoder in distributed training. "
     ++ "Please set gradient_accumulation_steps to 1. This feature will be supported in the future."))
  else Ok (args, i).

(** [math.ceil(a / b)], taken exactly (the float quotient of the code is
    exact enough for that as long as [a] is below [2 ^ 53]). *)
Definition ceil_div (a b : Z) : Z := (- ((- a) / b))%Z.

(** Lines 794-821: the number of optimization steps of the run and the
    number of epochs it takes. *)
Definition plan_steps (args : Args) (env : Env) : result (Z * Z) :=
  let gas := gradient_accumulation_steps args in
  if (gas =? 0)%Z then Raise ZeroDivisionError else
  let num_update_steps_per_epoch :=
    ceil_div (Z.of_nat (dataloader_len env)) gas in
  let max_train_steps :=
    match max_train_steps args with
    | None => (num_train_epochs args * num_update_steps_per_epoch)%Z
    | Some m => m
    end in
  if (num_update_steps_per_epoch =? 0)%Z then Raise ZeroDivisionError else
  Ok (max_train_steps, ceil_div max_train_steps num_update_steps_per_epoch).

(** Line 844: the progress bar is given [len(range(0, max_train_steps, 1))]
    as its total, and [len] raises when the length does not fit a C
    [ssize_t] ([sys.maxsize], on a 64-bit platform). *)
Definition sys_maxsize : Z := (2 ^ 63 - 1)%Z.

Definition progress_bar_total (max_train_steps : Z) : result Z :=
  if (sys_maxsize <? max_train_steps)%Z then Raise OverflowError
  else Ok (Z.max 0 max_train_steps).

(** ** JSON values and the session *)

Inductive Json : Type :=
| JNull
| JBool (b : bool)
| JInt (z : Z)
| JStr (s : string)
| JArr (items : list Json)
| JObj (members : list (string * Json)).

Module JsonDump.

Definition quote : string := String (ascii_of_nat 34) EmptyString.

Definition hex_digit (n : nat) : ascii :=
  if (n <? 10)%nat then ascii_of_nat (48 + n) else ascii_of_nat (87 + n).

(** One character inside a JSON string, as [json.dumps] writes it with
    [ensure_ascii]. *)
Definition escape_char (c : ascii) : string :=
  let n := nat_of_ascii c in
  if (n =? 34)%nat then "\" ++ quote
  else if (n =? 92)%nat then "\\"
  else if (n =? 10)%nat then "\n"
  else if (n =? 13)%nat then "\r"
  else if (n =? 9)%nat then "\t"
  else if (n =? 8)%nat then "\b"
  else if (n =? 12)%nat then "\f"
  else if (n <? 32)%nat || (126 <? n)%nat
  then "\u00" ++ String (hex_digit (n / 16)) (String (hex_digit (n mod 16)) "")
  else String c "".

Fixpoint escape (s : string) : string :=
  match s with
  | EmptyString => EmptyString
  | String c r => escape_char c ++ escape r
  end.

Definition dump_str (s : string) : string := quote ++ escape s ++ quote.

(** [json.dumps] with the default separators. *)
Fixpoint dumps (j : Json) : string :=
  match j with
  | JNull => "null"
  | JBool true => "true"
  | JBool false => "false"
  | JInt z => PyStr.str z
  | JStr s => dump_str s
  | JArr items =>
      "[" ++
      (fix go (l : list Json) : string :=
         match l with
         | [] => ""
         | x :: r =>
             dumps x ++ match r with [] => "" | _ => ", " ++ go r end
         end) items
      ++ "]"
  | JObj members =>
      "{" ++
      (fix go (l : list (string * Json)) : string :=
         match l with
         | [] => ""
         | (k, v) :: r =>
             dump_str k ++ ": " ++ dumps v
             ++ match r with [] => "" | _ => ", " ++ go r end
         end) members
      ++ "}"
  end.

End JsonDump.

(** [session["session_step"]] *)
Definition session_step_of (session : Json) : result Json :=
  match session with
  | JObj d =>
      match lookup "session_step" d with
      | Some v => Ok v
      | None => Raise (KeyError "session_step")
      end
  | _ => Raise TypeError
  end.

(** [v + n] for an [int] [n]: defined on integers and booleans. *)
Definition add_int (v : Json) (n : Z) : result Z :=
  match v with
  | JInt z => Ok (z + n)%Z
  | JBool b => Ok ((if b then 1 else 0) + n)%Z
  | _ => Raise TypeError
  end.

(** [session["session_step"] += n] *)
Definition session_add (session : Json) (n : Z) : result Json :=
  v <- session_step_of session ;;
  z <- add_int v n ;;
  match session with
  | JObj d => Ok (JObj (dict_set "session_step" (JInt z) d))
  | _ => Raise TypeError
  end.

(** ** Paths *)

Module PyPath.

Definition slash : ascii := "/"%char.

(** The part after the last ["/"] ([os.path.basename]). *)
Fixpoint basename (s : string) : string :=
  match s with
  | EmptyString => EmptyString
  | String c r =>
      if PyStr.mem slash r then basename r
      else if Ascii.eqb c slash then r else s
  end.

Fixpoint all_slashes (s : string) : bool :=
  match s with
  | EmptyString => true
  | String c r => Ascii.eqb c slash && all_slashes r
  end.

(** [s.rstrip('/')] *)
Fixpoint rstrip_slash (s : string) : string :=
  match s with
  | EmptyString => EmptyString
  | String c r =>
      match rstrip_slash r with
      | EmptyString => if Ascii.eqb c slash then EmptyString else String c ""
      | r' => String c r'
      end
  end.

(** [os.path.dirname] *)
Definition dirname (p : string) : string :=
  let head :=
    substring 0 (String.length p - String.length (basename p)) p in
  if negb (String.eqb head "") && negb (all_slashes head)
  then rstrip_slash head
  else head.

(** The components between the slashes. *)
Fixpoint split_slash (cur : string) (s : string) : list string :=
  match s with
  | EmptyString => [cur]
  | String c r =>
      if Ascii.eqb c slash then cur :: split_slash "" r
      else split_slash (cur ++ String c "") r
  end.

Fixpoint join_parts (l : list string) : string :=
  match l with
  | [] => ""
  | [x] => x
  | x :: r => x ++ "/" ++ join_parts r
  end.

(** [str(Path(p))]: empty and ["."] components go, and so does a
    trailing slash; two leading slashes, exactly, stay two. *)
Definition Path_str (p : string) : string :=
  let root :=
    match p with
    | String "/" (String "/" (String "/" _)) => "/"
    | String "/" (String "/" _) => "//"
    | String "/" _ => "/"
    | _ => ""
    end in
  let parts :=
    List.filter (fun x => negb (String.eqb x "" || String.eqb x "."))
                (split_slash "" p) in
  match root, parts with
  | EmptyString, [] => "."
  | _, _ => root ++ join_parts parts
  end.

End PyPath.

(** ** The world [main] acts on *)

(** The session file: its text, and what [json.load] makes of that text
    ([None] when the text is not JSON). *)
Record SessionFile : Type := mkSessionFile {
  text : string;
  parsed : option Json
}.

(** Model weights are named by the number of optimizer updates they went
    through. *)
Inductive Event : Type :=
| OptimizerStep (with_text_encoder : bool)
| SaveFrozen (frz_dir : string) (text_encoder : nat)
| FreezeSkipped
| Mkdir (dir : string)
| SavePipeline (dir : string) (unet text_encoder : nat)
| RestoreFrozen (frz_dir target : string) (text_encoder : nat)
| Convert (script model_path checkpoint_path : string)
| Rmtree (dir : string)
| Remove (path : string)
| WriteSession (path : string) (session : Json).

Record World : Type := mkWorld {
  paths : list string;
  session_file : option SessionFile;
  frozen : option nat;
  unet_bin : bool;
  events : list Event
}.

Definition exists_path (p : string) (w : World) : bool :=
  existsb (String.eqb p) (paths w).

Definition emit (e : Event) (w : World) : World :=
  mkWorld (paths w) (session_file w) (frozen w) (unet_bin w)
          (events w ++ [e])%list.

Definition add_path (p : string) (w : World) : World :=
  mkWorld (p :: paths w) (session_file w) (frozen w) (unet_bin w) (events w).

Definition del_path (p : string) (w : World) : World :=
  mkWorld (List.filter (fun q => negb (String.eqb p q)) (paths w))
          (session_file w) (frozen w) (unet_bin w) (events w).

Definition set_frozen (v : option nat) (w : World) : World :=
  mkWorld (paths w) (session_file w) v (unet_bin w) (events w).

Definition set_unet_bin (v : bool) (w : World) : World :=
  mkWorld (paths w) (session_file w) (frozen w) v (events w).

Definition set_session_file (f : option SessionFile) (w : World) : World :=
  mkWorld (paths w) f (frozen w) (unet_bin w) (events w).

Definition frz_dir_of (args : Args) : string :=
  output_dir args ++ "/text_encoder_frozen".

Definition session_path (args : Args) : string :=
  output_dir args ++ "/training/session.json".

(** Lines 847-857: the session of the last run, or a fresh one. *)
Definition load_session (args : Args) (w : World) : result (Json * World) :=
  let session := JObj [("session_step", JInt 0)] in
  let training := output_dir args ++ "/training" in
  let w := if exists_path training w then w
           else emit (Mkdir training) (add_path training w) in
  match session_file w with
  | Some f =>
      let size := Z.of_nat (String.length (text f)) in
      if (0 <? size)%Z && (size <? 10000)%Z
      then match parsed f with
           | Some j => Ok (j, w)
           | None => Raise JSONDecodeError
           end
      else Ok (session, w)
  | None => Ok (session, w)
  end.

(** ** The training loop *)

Record State : Type := mkState {
  global_step : Z;
  i : Z;
  accum : Z;
  unet : nat;
  text_encoder : nat;
  world : World
}.

Definition set_world (w : World) (st : State) : State :=
  mkState (global_step st) (i st) (accum st) (unet st) (text_encoder st) w.

(** [with accelerator.accumulate(unet)]: the last batch of the data loader
    always is a boundary, and it resets the count of micro-batches;
    otherwise every [gradient_accumulation_steps]-th micro-batch is one. *)
Definition accumulate (args : Args) (end_of_dataloader : bool) (st : State)
  : State * bool :=
  if end_of_dataloader
  then (mkState (global_step st) (i st) 0 (unet st) (text_encoder st)
                (world st), true)
  else
    let step := (accum st + 1)%Z in
    (mkState (global_step st) (i st) step (unet st) (text_encoder st)
             (world st),
     (step mod gradient_accumulation_steps args =? 0)%Z).

(** [optimizer.step()]: on a boundary every parameter handed to the
    optimizer is updated; the text encoder's are among them exactly when
    [train_text_encoder] is set.  Off a boundary the step is skipped. *)
Definition optimizer_step (args : Args) (sync_gradients : bool) (st : State)
  : State :=
  if sync_gradients
  then mkState (global_step st) (i st) (accum st) (S (unet st))
         (if train_text_encoder args then S (text_encoder st)
          else text_encoder st)
         (emit (OptimizerStep (train_text_encoder args)) (world st))
  else st.

(** Lines 930-932. *)
Definition count_step (sync_gradients : bool) (st : State) : State :=
  if sync_gradients
  then mkState (global_step st + 1) (i st) (accum st) (unet st)
               (text_encoder st) (world st)
  else st.

(** Lines 787-789: once the latents are cached, a text encoder that is not
    trained is deleted ([del text_encoder]); the local variable is unbound
    from then on. *)
Definition text_encoder_bound (args : Args) : bool :=
  train_text_encoder args || not_cache_latents args.

(** Lines 946-962. *)
Definition freeze_text_encoder (args : Args) (env : Env) (st : State) : State :=
  if train_text_encoder args
     && (global_step st =? stop_text_encoder_training args)%Z
     && (global_step st >=? 30)%Z
  then
    if is_main_process env
    then
      let frz_dir := frz_dir_of args in
      let w := world st in
      let w := match frozen w with
               | Some _ => emit (Rmtree frz_dir) (set_frozen None w)
               | None => w
               end in
      let w := emit (Mkdir frz_dir) w in
      let w := emit (SaveFrozen frz_dir (text_encoder st))
                    (set_frozen (Some (text_encoder st)) w) in
      set_world w st
    else set_world (emit FreezeSkipped (world st)) st
  else st.

(** Lines 964-996: the periodic export.  [max_train_steps] is the planned
    number of steps, [session] the session loaded at startup. *)
Definition periodic_export
    (args : Args) (env : Env) (max_train_steps : Z) (session : Json)
    (st : State) : result State :=
  if (save_n_steps args >=? 200)%Z
  then
    if (global_step st + 1 <? max_train_steps)%Z
       && (global_step st + 1 =? i st)%Z
    then
      v <- session_step_of session ;;
      n <- add_int v (global_step st) ;;
      let ckpt_name := "_" ++ PyStr.str (n + 1) in
      let save_dir :=
        PyStr.replace " " "_" (PyPath.Path_str (output_dir args ++ ckpt_name)) in
      let w := world st in
      let w := if exists_path save_dir w then w
               else emit (Mkdir save_dir) (add_path save_dir w) in
      let inst :=
        PyStr.replace " " "_"
          (PyPath.basename (PyPath.dirname (output_dir args ++ "/"))
           ++ ckpt_name) in
      if is_main_process env
      then
        if negb (text_encoder_bound args) then Raise UnboundLocalError else
        let w := emit (SavePipeline save_dir (unet st) (text_encoder st)) w in
        let w :=
          match train_text_encoder args, frozen w with
          | true, Some snapshot =>
              emit (RestoreFrozen (frz_dir_of args)
                                  (save_dir ++ "/text_encoder") snapshot) w
          | _, _ => w
          end in
        let chkpth := Session_dir args ++ "/" ++ inst ++ ".ckpt" in
        let w := emit (Convert (diffusers_to_ckpt_script_path args)
                               save_dir chkpth) w in
        let w := if (save_intermediary_dirs args =? 0)%Z
                 then emit (Rmtree save_dir) (del_path save_dir w)
                 else w in
        Ok (mkState (global_step st) (i st + save_n_steps args) (accum st)
                    (unet st) (text_encoder st) w)
      else Ok (set_world w st)
    else Ok st
  else Ok st.

(** One pass through the body of [for step, batch in enumerate(...)];
    the boolean tells whether the pass ended in [break]. *)
Definition loop_body
    (args : Args) (env : Env) (max_train_steps : Z) (session : Json)
    (end_of_dataloader : bool) (st : State) : result (State * bool) :=
  let '(st, sync_gradients) := accumulate args end_of_dataloader st in
  let st := optimizer_step args sync_gradients st in
  let st := count_step sync_gradients st in
  if (max_train_steps =? 0)%Z then Raise ZeroDivisionError else
  if (global_step st >=? max_train_steps)%Z then Ok (st, true) else
  let st := freeze_text_encoder args env st in
  st <- periodic_export args env max_train_steps session st ;;
  Ok (st, false).

(** The inner loop over the [remaining] batches of an epoch. *)
Fixpoint batches_loop
    (body : bool -> State -> result (State * bool))
    (remaining : nat) (st : State) : result State :=
  match remaining with
  | O => Ok st
  | S r =>
      ' (st1, stop) <- body (r =? 0)%nat st ;;
      if stop then Ok st1 else batches_loop body r st1
  end.

(** [for epoch in range(num_train_epochs)]; a [break] leaves the inner loop
    only. *)
Fixpoint epochs_loop
    (body : bool -> State -> result (State * bool))
    (batches : nat) (epochs : nat) (st : State) : result State :=
  match epochs with
  | O => Ok st
  | S e =>
      st1 <- batches_loop body batches st ;;
      epochs_loop body batches e st1
  end.

(** Lines 1004-1020: the final pipeline, on the main process.  Building
    it reads the local variable [text_encoder] (line 1009). *)
Definition final_export (args : Args) (env : Env) (st : State)
  : result World :=
  let w := world st in
  if is_main_process env
  then
    if negb (text_encoder_bound args) then Raise UnboundLocalError else
    let w := set_unet_bin true
               (emit (SavePipeline (output_dir args) (unet st)
                                   (text_encoder st)) w) in
    match train_text_encoder args, frozen w with
    | true, Some snapshot =>
        let w := emit (RestoreFrozen (frz_dir_of args)
                         (output_dir args ++ "/text_encoder") snapshot) w in
        Ok (emit (Rmtree (frz_dir_of args)) (set_frozen None w))
    | _, _ => Ok w
    end
  else Ok w.

(** Lines 1029-1036: the session goes back to its file. *)
Definition save_session
    (args : Args) (max_train_steps : Z) (session : Json) (w : World)
  : result (Json * World) :=
  session <- session_add session max_train_steps ;;
  let training := output_dir args ++ "/training" in
  let w := if exists_path training w then w
           else emit (Mkdir training) (add_path training w) in
  let f := mkSessionFile (JsonDump.dumps session) (Some session) in
  Ok (session,
      emit (WriteSession (session_path args) session)
           (set_session_file (Some f) w)).

Definition final_chkpth (args : Args) (session_step : Z) : string :=
  output_dir args ++ "/"
  ++ PyPath.basename (PyPath.dirname (output_dir args ++ "/"))
  ++ "_" ++ PyStr.str session_step ++ ".ckpt".

(** Lines 1038-1051: the final checkpoint, named after the session step. *)
Definition save_final_ckpt (args : Args) (session : Json) (w : World)
  : result World :=
  if unet_bin w
  then
    v <- session_step_of session ;;
    n <- add_int v 0 ;;
    let path := final_chkpth args n in
    let w := if exists_path path w
             then emit (Remove path) (del_path path w) else w in
    Ok (emit (Convert (diffusers_to_ckpt_script_path args)
                      (output_dir args) path) w)
  else Ok w.

Definition initial_state (i0 : Z) (w : World) : State :=
  mkState 0 i0 0 0 0 w.

(** [main], from the arguments to the final checkpoint.  Loading the
    models, generating class images and building the data set lie between
    the prelude and the loop and are not part of this model, and neither
    is the push to the hub after the final export; what they leave behind
    for the rest of [main] is the length of the data loader and whether
    the local variable [text_encoder] is still bound. *)
Definition main (args : Args) (env : Env) (w : World) : result State :=
  ' (args, i0) <- main_prelude args env ;;
  ' (max_train_steps, epochs) <- plan_steps args env ;;
  _ <- progress_bar_total max_train_steps ;;
  ' (session, w) <- load_session args w ;;
  st <- epochs_loop (loop_body args env max_train_steps session)
          (dataloader_len env) (Z.to_nat epochs) (initial_state i0 w) ;;
  w <- final_export args env st ;;
  ' (session, w) <- save_session args max_train_steps session w ;;
  w <- save_final_ckpt args session w ;;
  Ok (set_world w st).

(** The number of optimizer updates a trace records. *)
Definition optimizer_steps (l : list Event) : nat :=
  List.length
    (List.filter (fun e => match e with OptimizerStep _ => true | _ => false end) l).

(** The snapshots of the text encoder a trace records: where each went and
    the weights it holds. *)
Definition snapshots (l : list Event) : list (string * nat) :=
  flat_map (fun e => match e with SaveFrozen d v => [(d, v)] | _ => [] end) l.

(** ** DreamBoothDataset *)

Module DreamBoothDataset.

Record t : Type := mk {
  instance_images_path : list string;
  num_instance_images : nat;
  instance_prompt : string;
  image_captions_filename : bool;
  class_images_path : option (list string);
  num_class_images : nat;
  class_prompt : option string;
  length : nat
}.

(** One example before the images are opened and the prompts tokenized:
    the instance image and its prompt, and with class images the class
    image and the class prompt. *)
Record example : Type := mk_example {
  instance_image : string;
  example_prompt : string;
  class_example : option (string * option string)
}.

(** [__init__].  [root] is what is at [instance_data_root], and
    [class_data_root] the class directory, if one is given, with what is
    there.  Every entry of a directory counts, sub-directories too (what
    opening one as an image does is outside this model). *)
Definition init
    (instance_data_root : string) (root : option Node)
    (instance_prompt : string) (captions : bool)
    (class_data_root : option (string * option Node))
    (class_prompt : option string) : result t :=
  match root with
  | None => Raise (ValueError "Instance images root doesn't exists.")
  | Some File => Raise NotADirectoryError
  | Some (Dir entries) =>
      let instance_images_path :=
        map (fun x => join instance_data_root (fst x)) entries in
      let num_instance_images := List.length instance_images_path in
      match class_data_root with
      | Some (class_root, at_class_root) =>
          listing <-
            match at_class_root with
            | None => Ok []
            | Some (Dir l) => Ok l
            | Some File => Raise FileExistsError
            end ;;
          let class_images_path :=
            map (fun x => join class_root (fst x)) listing in
          let num_class_images := List.length class_images_path in
          Ok (mk instance_images_path num_instance_images instance_prompt
                 captions (Some class_images_path) num_class_images
                 class_prompt
                 (Nat.max num_class_images num_instance_images))
      | None =>
          Ok (mk instance_images_path num_instance_images instance_prompt
                 captions None 0 class_prompt num_instance_images)
      end
  end.

(** [l[index % n]] with [n] the length the data set recorded for [l]. *)
Definition cyclic (l : list string) (n index : nat) : result string :=
  if (n =? 0)%nat then Raise ZeroDivisionError
  else match nth_error l (index mod n) with
       | Some x => Ok x
       | None => Raise IndexError
       end.

(** [__getitem__] *)
Definition getitem (d : t) (index : nat) : result example :=
  path <- cyclic (instance_images_path d) (num_instance_images d) index ;;
  let prompt :=
    DreamBoothDataset_instance_prompt (instance_prompt d)
      (image_captions_filename d) (PyStr.stem (PyPath.basename path)) in
  match class_images_path d with
  | Some images =>
      class_image <- cyclic images (num_class_images d) index ;;
      Ok (mk_example path prompt (Some (class_image, class_prompt d)))
  | None => Ok (mk_example path prompt None)
  end.

End DreamBoothDataset.

(** ** AverageMeter *)

Module AverageMeter.

Record t : Type := mk {
  sum : Q;
  count : Z;
  avg : Q
}.

(** [reset] *)
Definition reset : t := mk 0 0 0.

(** [update(val, n)]: the division is by the new count. *)
Definition update (val : Q) (n : Z) (m : t) : result t :=
  let sum := (sum m + val * inject_Z n)%Q in
  let count := (count m + n)%Z in
  if (count =? 0)%Z then Raise ZeroDivisionError
  else Ok (mk sum count (sum / inject_Z count)%Q).

(** One [update] after the other. *)
Fixpoint updates (l : list (Q * Z)) (m : t) : result t :=
  match l with
  | [] => Ok m
  | (val, n) :: r => m1 <- update val n m ;; updates r m1
  end.

End AverageMeter.

(** ** Class images to generate ([PromptDataset], [generate_class_samples]) *)

(** [PromptDataset.__getitem__] *)
Definition PromptDataset_getitem (prompt : string) (index : nat)
  : string * nat := (prompt, index).

(** The batches of a data loader that does not shuffle: the indices
    [0 .. n - 1] in pieces of [batch_size], the last one maybe shorter. *)
Definition dataloader_batches (n batch_size : nat) : list (list nat) :=
  torch_split n batch_size (seq 0 n).

(** [generate_class_samples] on one process: the names of the files it
    writes into the class directory, in order.  [existing] are the entries
    the directory has. *)
Definition generate_class_samples
    (num_class_images : Z) (sample_batch_size : Z) (class_prompt : string)
    (existing : list string) : result (list string) :=
  let cur_class_images := Z.of_nat (List.length existing) in
  let num_new_images := (num_class_images - cur_class_images)%Z in
  if (num_new_images <=? 0)%Z then Ok []
  else if (sample_batch_size <=? 0)%Z
  then Raise (ValueError
    ("batch_size should be a positive integer value, but got batch_size="
     ++ PyStr.str sample_batch_size))
  else
    Ok (flat_map
          (fun batch =>
             map (fun idx =>
                    let example := PromptDataset_getitem class_prompt idx in
                    PyStr.str (Z.of_nat (snd example) + cur_class_images)
                    ++ ".jpg")
                 batch)
          (dataloader_batches (Z.to_nat num_new_images)
                              (Z.to_nat sample_batch_size))).

(** The class directory after the files were written: a file of a name
    that is there already is written over. *)
Definition write_files (existing names : list string) : list string :=
  (existing
   ++ List.filter (fun n => negb (existsb (String.eqb n) existing)) names)%list.

(** ** Reference functions the properties are stated with *)

(** One pass over a string that drops or rewrites each character. *)
Fixpoint map_filter (f : ascii -> option ascii) (s : string) : string :=
  match s with
  | EmptyString => EmptyString
  | String c r =>
      match f c with
      | Some d => String d (map_filter f r)
      | None => map_filter f r
      end
  end.

(** What the file-name prompt does to one character: a digit goes, an
    underscore becomes a space, parentheses and hyphens go. *)
Definition prompt_char (c : ascii) : option ascii :=
  if PyStr.isdigit c then None
  else if Ascii.eqb c "_" then Some " "%char
  else if Ascii.eqb c "(" || Ascii.eqb c ")" || Ascii.eqb c "-" then None
  else Some c.

(** The characters a file-name prompt never holds. *)
Definition stripped_char (c : ascii) : bool :=
  PyStr.isdigit c || Ascii.eqb c "_" || Ascii.eqb c "(" || Ascii.eqb c ")"
  || Ascii.eqb c "-".

(** One left-to-right pass that turns each pair of commas into one. *)
Fixpoint collapse_pairs (s : string) : string :=
  match s with
  | EmptyString => EmptyString
  | String c r =>
      match r with
      | String d r' =>
          if Ascii.eqb c PyStr.comma && Ascii.eqb d PyStr.comma
          then String PyStr.comma (collapse_pairs r')
          else String c (collapse_pairs r)
      | EmptyString => String c EmptyString
      end
  end.

(** The names of the plain files of [root/prompt]; none when there is no
    such directory. *)
Definition class_files (root : list (string * Node)) (prompt : string)
  : list string :=
  match lookup prompt root with
  | Some (Dir l) => map fst (List.filter (fun x => negb (is_dir x)) l)
  | _ => []
  end.

(** The group sub-folders of a class sub-folder. *)
Definition group_dirs (class_subdir : string * Node) : list (string * Node) :=
  List.filter is_dir (entries_of class_subdir).

(** The session [main] starts from when there is nothing to load. *)
Definition fresh_session : Json := JObj [("session_step", JInt 0)].

(** The world once [<output_dir>/training] is there. *)
Definition with_training_dir (args : Args) (w : World) : World :=
  let training := output_dir args ++ "/training" in
  if exists_path training w then w
  else emit (Mkdir training) (add_path training w).

(** The number of gradient synchronisation boundaries among the next [r]
    micro-batches of an epoch, [a] micro-batches after the last reset of
    the accumulation count. *)
Fixpoint syncs (gas : Z) (a : Z) (r : nat) : Z :=
  match r with
  | O => 0
  | S r' =>
      if (r' =? 0)%nat then 1
      else ((if ((a + 1) mod gas =? 0)%Z then 1 else 0) + syncs gas (a + 1) r')%Z
  end.

(** The state after the part of a loop pass that comes before the test
    for [break]: accumulation, optimizer step and step count. *)
Definition advance (args : Args) (end_of_dataloader : bool) (st : State)
  : State :=
  let sync_gradients := snd (accumulate args end_of_dataloader st) in
  count_step sync_gradients
    (optimizer_step args sync_gradients
       (fst (accumulate args end_of_dataloader st))).

(** Two states that differ by file-system work only: the counters, the
    weights, the frozen snapshot, the session file and the optimizer and
    snapshot records of the trace are the same. *)
Definition same_training (st st' : State) : Prop :=
  global_step st' = global_step st
  /\ accum st' = accum st
  /\ unet st' = unet st
  /\ text_encoder st' = text_encoder st
  /\ frozen (world st') = frozen (world st)
  /\ session_file (world st') = session_file (world st)
  /\ unet_bin (world st') = unet_bin (world st)
  /\ optimizer_steps (events (world st')) = optimizer_steps (events (world st))
  /\ snapshots (events (world st')) = snapshots (events (world st)).

(** What [main] does once the loop is over: the final pipeline, the
    session file and the final checkpoint. *)
Definition finish
    (args : Args) (env : Env) (max_train_steps : Z) (session : Json)
    (st : State) : result State :=
  w <- final_export args env st ;;
  ' (session, w) <- save_session args max_train_steps session w ;;
  w <- save_final_ckpt args session w ;;
  Ok (set_world w st).

(** The session file that holds [session]. *)
Definition session_file_of (session : Json) : SessionFile :=
  mkSessionFile (JsonDump.dumps session) (Some session).

(** The part of a trace that comes after its first snapshot of the text
    encoder, and the number of optimizer updates of a trace that moved the
    text encoder. *)
Fixpoint after_snapshot (l : list Event) : list Event :=
  match l with
  | [] => []
  | SaveFrozen _ _ :: r => r
  | _ :: r => after_snapshot r
  end.

Definition text_encoder_updates (l : list Event) : nat :=
  List.length
    (List.filter
       (fun e => match e with OptimizerStep true => true | _ => false end) l).

(** The weighted sum and the number of values a list of updates of an
    [AverageMeter] brings. *)
Definition weighted_sum (l : list (Q * Z)) : Q :=
  fold_right (fun x acc => (fst x * inject_Z (snd x) + acc)%Q) 0%Q l.

Definition total_count (l : list (Q * Z)) : Z :=
  fold_right (fun x acc => (snd x + acc)%Z) 0%Z l.

(** The file names [generate_class_samples] is to write when the class
    directory has [cur] entries and [k] images are missing. *)
Definition new_class_images (cur k : nat) : list string :=
  map (fun j => PyStr.str (Z.of_nat j + Z.of_nat cur) ++ ".jpg") (seq 0 k).

(** * Properties *)

(** ** File-name prompts *)

Section FilenamePrompt.

Local Ltac by_char c := destruct c as [[] [] [] [] [] [] [] []].

Lemma replace_char_map (a b : ascii) (s : string) :
  PyStr.replace (String a "") (String b "") s
  = map_filter (fun c => if Ascii.eqb a c then Some b else Some c) s.
Proof.
  unfold PyStr.replace.
  induction s as [|c r IH]; simpl; [reflexivity|].
  destruct (ascii_dec a c) as [->|N].
  - rewrite Ascii.eqb_refl, IH; now destruct r.
  - apply Ascii.eqb_neq in N; now rewrite N, IH.
Qed.

Lemma replace_char_drop (a : ascii) (s : string) :
  PyStr.replace (String a "") "" s
  = map_filter (fun c => if Ascii.eqb a c then None else Some c) s.
Proof.
  unfold PyStr.replace.
  induction s as [|c r IH]; simpl; [reflexivity|].
  destruct (ascii_dec a c) as [->|N].
  - rewrite Ascii.eqb_refl, IH; now destruct r.
  - apply Ascii.eqb_neq in N; now rewrite N, IH.
Qed.

Lemma filter_as_map_filter (f : ascii -> bool) (s : string) :
  PyStr.filter f s = map_filter (fun c => if f c then Some c else None) s.
Proof.
  induction s as [|c r IH]; simpl; [reflexivity|].
  destruct (f c); now rewrite IH.
Qed.

Lemma map_filter_compose (f g : ascii -> option ascii) (s : string) :
  map_filter g (map_filter f s)
  = map_filter (fun c => match f c with Some d => g d | None => None end) s.
Proof.
  induction s as [|c r IH]; simpl; [reflexivity|].
  destruct (f c) as [d|]; simpl; [destruct (g d)|]; now rewrite IH.
Qed.

Lemma map_filter_ext (f g : ascii -> option ascii) (s : string) :
  (forall c, f c = g c) -> map_filter f s = map_filter g s.
Proof.
  intros E; induction s as [|c r IH]; simpl; [reflexivity|].
  rewrite E, IH; reflexivity.
Qed.

Lemma filename_prompt_pass (s : string) :
  filename_prompt s = map_filter prompt_char s.
Proof.
  unfold filename_prompt.
  rewrite !replace_char_drop, replace_char_map, filter_as_map_filter.
  rewrite !map_filter_compose.
  apply map_filter_ext; intros c; by_char c; reflexivity.
Qed.

Lemma prompt_char_clean (c d : ascii) :
  prompt_char c = Some d -> stripped_char d = false.
Proof.
  by_char c; intros H; vm_compute in H;
    (discriminate H || (injection H as <-; reflexivity)).
Qed.

Lemma map_filter_prompt_clean (s : string) :
  PyStr.any stripped_char (map_filter prompt_char s) = false.
Proof.
  induction s as [|c r IH]; simpl; [reflexivity|].
  destruct (prompt_char c) as [d|] eqn:E; simpl; [|exact IH].
  now rewrite (prompt_char_clean _ _ E), IH.
Qed.

End FilenamePrompt.

Section CommaRuns.

Lemma prefix_empty (s : string) : prefix "" s = true.
Proof. destruct s; reflexivity. Qed.

Lemma prefix_commas (c d : ascii) (r : string) :
  prefix ",," (String c (String d r))
  = Ascii.eqb c PyStr.comma && Ascii.eqb d PyStr.comma.
Proof.
  cbn [prefix]. unfold PyStr.comma.
  destruct (ascii_dec "," c) as [<-|Nc].
  - destruct (ascii_dec "," d) as [<-|Nd].
    + now rewrite prefix_empty.
    + symmetry. apply Ascii.eqb_neq. congruence.
  - symmetry. apply andb_false_iff. left. apply Ascii.eqb_neq. congruence.
Qed.

Lemma replace_commas_step (c d : ascii) (r : string) :
  PyStr.replace_aux ",," "," 0 (String c (String d r))
  = if Ascii.eqb c PyStr.comma && Ascii.eqb d PyStr.comma
    then String PyStr.comma (PyStr.replace_aux ",," "," 0 r)
    else String c (PyStr.replace_aux ",," "," 0 (String d r)).
Proof.
  rewrite <- (prefix_commas c d r).
  change (PyStr.replace_aux ",," "," 0 (String c (String d r)))
    with (if prefix ",," (String c (String d r))
          then String PyStr.comma (PyStr.replace_aux ",," "," 0 r)
          else String c (PyStr.replace_aux ",," "," 0 (String d r))).
  reflexivity.
Qed.

Lemma collapse_pairs_step (c d : ascii) (r : string) :
  collapse_pairs (String c (String d r))
  = if Ascii.eqb c PyStr.comma && Ascii.eqb d PyStr.comma
    then String PyStr.comma (collapse_pairs r)
    else String c (collapse_pairs (String d r)).
Proof. reflexivity. Qed.

Lemma replace_commas_collapse_bounded (n : nat) :
  forall s, (String.length s <= n)%nat ->
    PyStr.replace_aux ",," "," 0 s = collapse_pairs s.
Proof.
  induction n as [|n IH]; intros s Hl.
  - destruct s; [reflexivity | simpl in Hl; lia].
  - destruct s as [|c r]; [reflexivity|].
    destruct r as [|d r']; simpl in Hl.
    + cbn [PyStr.replace_aux collapse_pairs prefix].
      destruct (ascii_dec "," c); reflexivity.
    + rewrite replace_commas_step, collapse_pairs_step.
      destruct (Ascii.eqb c PyStr.comma && Ascii.eqb d PyStr.comma);
        f_equal; apply IH; simpl; lia.
Qed.

Lemma replace_commas_collapse (s : string) :
  PyStr.replace ",," "," s = collapse_pairs s.
Proof.
  apply (replace_commas_collapse_bounded (String.length s)); lia.
Qed.

Lemma lead_collapse_bounded (n : nat) :
  forall s, (String.length s <= n)%nat ->
    PyStr.lead_commas (collapse_pairs s) = ((PyStr.lead_commas s + 1) / 2)%nat.
Proof.
  induction n as [|n IH]; intros s Hl.
  - destruct s; [reflexivity | simpl in Hl; lia].
  - destruct s as [|c r]; [reflexivity|].
    destruct r as [|d r']; simpl in Hl.
    + simpl. destruct (Ascii.eqb c PyStr.comma); reflexivity.
    + rewrite collapse_pairs_step.
      destruct (Ascii.eqb c PyStr.comma) eqn:Ec;
        destruct (Ascii.eqb d PyStr.comma) eqn:Ed;
        cbn [andb]; cbn [PyStr.lead_commas];
        rewrite ?Ec, ?Ed, ?Ascii.eqb_refl; try reflexivity.
      * rewrite (IH r') by lia.
        replace (S (S (PyStr.lead_commas r')) + 1)%nat
          with ((PyStr.lead_commas r' + 1) + 1 * 2)%nat by lia.
        rewrite Nat.div_add by lia. lia.
      * rewrite (IH (String d r')) by (simpl; lia).
        cbn [PyStr.lead_commas]. rewrite Ed. reflexivity.
Qed.

Lemma lead_collapse (s : string) :
  PyStr.lead_commas (collapse_pairs s) = ((PyStr.lead_commas s + 1) / 2)%nat.
Proof. apply (lead_collapse_bounded (String.length s)); lia. Qed.

Lemma lead_le_max_run (s : string) :
  (PyStr.lead_commas s <= PyStr.max_comma_run s)%nat.
Proof. destruct s; simpl; lia. Qed.

Lemma half_up_mono (a b : nat) : (a <= b -> (a + 1) / 2 <= (b + 1) / 2)%nat.
Proof. intros H. apply Nat.Div0.div_le_mono. lia. Qed.

Lemma max_run_collapse_bounded (n : nat) :
  forall s, (String.length s <= n)%nat ->
    (PyStr.max_comma_run (collapse_pairs s)
     <= (PyStr.max_comma_run s + 1) / 2)%nat.
Proof.
  induction n as [|n IH]; intros s Hl.
  - destruct s; [simpl; lia | simpl in Hl; lia].
  - destruct s as [|c r]; [simpl; lia|].
    assert (Hlead := lead_collapse (String c r)).
    assert (Hle := lead_le_max_run (String c r)).
    destruct r as [|d r']; simpl in Hl.
    + simpl in *. destruct (Ascii.eqb c PyStr.comma); simpl; lia.
    + assert (Hr : (PyStr.max_comma_run (String d r')
                    <= PyStr.max_comma_run (String c (String d r')))%nat).
      { cbn [PyStr.max_comma_run]. lia. }
      assert (Hr' : (PyStr.max_comma_run r'
                    <= PyStr.max_comma_run (String d r'))%nat).
      { cbn [PyStr.max_comma_run]. lia. }
      revert Hlead. rewrite collapse_pairs_step.
      destruct (Ascii.eqb c PyStr.comma && Ascii.eqb d PyStr.comma);
        intros Hlead; cbn [PyStr.max_comma_run]; rewrite Hlead;
        apply Nat.max_lub.
      * apply half_up_mono, Hle.
      * etransitivity; [apply (IH r'); lia|]. apply half_up_mono.
        cbn [PyStr.max_comma_run] in Hr, Hr' |- *. lia.
      * apply half_up_mono, Hle.
      * etransitivity; [apply (IH (String d r')); simpl; lia|].
        apply half_up_mono. cbn [PyStr.max_comma_run] in Hr, Hr' |- *. lia.
Qed.

Lemma max_run_collapse (s : string) :
  (PyStr.max_comma_run (collapse_pairs s)
   <= (PyStr.max_comma_run s + 1) / 2)%nat.
Proof. apply (max_run_collapse_bounded (String.length s)); lia. Qed.

Lemma any_collapse (f : ascii -> bool) (n : nat) :
  forall s, (String.length s <= n)%nat ->
    PyStr.any f s = false -> PyStr.any f (collapse_pairs s) = false.
Proof.
  induction n as [|n IH]; intros s Hl H.
  - destruct s; [reflexivity | simpl in Hl; lia].
  - destruct s as [|c r]; [reflexivity|].
    destruct r as [|d r']; [exact H|].
    simpl in Hl. rewrite collapse_pairs_step.
    cbn [PyStr.any] in H.
    apply orb_false_iff in H as [Hc H]. apply orb_false_iff in H as [Hd H].
    destruct (Ascii.eqb c PyStr.comma && Ascii.eqb d PyStr.comma) eqn:E.
    + apply andb_true_iff in E as [E _]. apply Ascii.eqb_eq in E. subst c.
      cbn [PyStr.any]. rewrite Hc. apply IH; [lia | exact H].
    + cbn [PyStr.any]. rewrite Hc. apply (IH (String d r')); [simpl; lia|].
      cbn [PyStr.any]. now rewrite Hd, H.
Qed.

End CommaRuns.

(** C6 (as the code has it).  The prompt derived from a file-name stem is
    a function of the stem alone: one pass that drops every character
    [str.isdigit] accepts (the decimal digits, and the superscripts two,
    three and one among the code points below 256), the parentheses and
    the hyphens, and turns every underscore into a space; the flat data
    set stops there, the sub-folder data set goes on with three passes
    that each turn pairs of commas into one comma, so that a run of [m]
    commas is left with at most [ceil(m / 8)].  Nothing is trimmed: the
    stem of ["sks_person (2).jpg"] gives ["sks person "], with the space
    that stood before the parenthesis; ["a,,b,,c"] gives ["a,b,c"]; and a
    stem made of [x], the superscript two, [_] and [1] gives ["x "]. *)
Theorem filename_prompt_derivation (stem : string) :
  filename_prompt stem = map_filter prompt_char stem
  /\ (forall p, DreamBoothDataset_instance_prompt p true stem
                = filename_prompt stem)
  /\ SubfolderModeDataset_instance_prompt stem
     = collapse_pairs (collapse_pairs (collapse_pairs (filename_prompt stem)))
  /\ PyStr.any stripped_char (filename_prompt stem) = false
  /\ PyStr.any stripped_char (SubfolderModeDataset_instance_prompt stem) = false
  /\ (PyStr.max_comma_run (SubfolderModeDataset_instance_prompt stem)
      <= (PyStr.max_comma_run (filename_prompt stem) + 7) / 8)%nat
  /\ SubfolderModeDataset_instance_prompt (PyStr.stem "sks_person (2).jpg")
     = "sks person "
  /\ SubfolderModeDataset_instance_prompt "a,,b,,c" = "a,b,c"
  /\ filename_prompt ("x" ++ String (ascii_of_nat 178) "_1") = "x ".
Proof.
  assert (E : SubfolderModeDataset_instance_prompt stem
              = collapse_pairs (collapse_pairs (collapse_pairs
                  (filename_prompt stem)))).
  { unfold SubfolderModeDataset_instance_prompt.
    now rewrite !replace_commas_collapse. }
  assert (C : PyStr.any stripped_char (filename_prompt stem) = false).
  { rewrite filename_prompt_pass. apply map_filter_prompt_clean. }
  repeat split; try reflexivity.
  - apply filename_prompt_pass.
  - exact E.
  - exact C.
  - rewrite E.
    repeat (eapply any_collapse; [apply Nat.le_refl|]). exact C.
  - rewrite E.
    pose proof (max_run_collapse (filename_prompt stem)) as H1.
    pose proof (max_run_collapse (collapse_pairs (filename_prompt stem))) as H2.
    pose proof (max_run_collapse
                  (collapse_pairs (collapse_pairs (filename_prompt stem)))) as H3.
    revert H1 H2 H3.
    generalize (PyStr.max_comma_run (filename_prompt stem)).
    generalize (PyStr.max_comma_run (collapse_pairs (filename_prompt stem))).
    generalize (PyStr.max_comma_run
                  (collapse_pairs (collapse_pairs (filename_prompt stem)))).
    generalize (PyStr.max_comma_run
                  (collapse_pairs (collapse_pairs (collapse_pairs
                     (filename_prompt stem))))).
    intros a b c d H1 H2 H3. zify. Z.to_euclidean_division_equations. lia.
Qed.

(** C6, as the specification words it, fails on the code: the example
    file name keeps a trailing space, nine commas in a row are left as two,
    and the flat data set does not touch commas at all. *)
Lemma filename_prompt_not_as_specified :
  SubfolderModeDataset_instance_prompt (PyStr.stem "sks_person (2).jpg")
  <> "sks person"
  /\ SubfolderModeDataset_instance_prompt ",,,,,,,,," = ",,"
  /\ DreamBoothDataset_instance_prompt "sks" true "a,,b,,c" = "a,,b,,c".
Proof.
  repeat split; try reflexivity.
  vm_compute. discriminate.
Qed.

(** ** The class image provider *)

Section RoundRobin.

Variable prompt : string.
Variable images : list string.

Let k : nat := List.length images.

Hypothesis nonempty : (1 <= k)%nat.

Lemma take_one_at (c : nat) :
  (c < k)%nat ->
  exists r,
    nth_error images c = Some r
    /\ take_one (mkProvider prompt images c)
       = Ok (r, mkProvider prompt images ((c + 1) mod k)).
Proof.
  intros Hc. destruct (nth_error images c) as [r|] eqn:E.
  - exists r. split; [reflexivity|]. unfold take_one. simpl. now rewrite E.
  - apply nth_error_None in E. unfold k in Hc. lia.
Qed.

Lemma mod_k_lt (n : nat) : (n mod k < k)%nat.
Proof. apply Nat.mod_upper_bound. lia. Qed.

(** [n] calls starting with the cursor at [c] give the images at
    [c], [c+1], ... modulo [k] and leave the cursor at [(c + n) mod k]. *)
Lemma take_many_from (n : nat) :
  forall c, (c < k)%nat ->
    exists rs,
      take_many n (mkProvider prompt images c)
      = Ok (rs, mkProvider prompt images ((c + n) mod k))
      /\ List.length rs = n
      /\ forall j, (j < n)%nat ->
           nth_error rs j = nth_error images ((c + j) mod k).
Proof.
  induction n as [|n IH]; intros c Hc.
  - exists []. simpl. rewrite Nat.add_0_r, Nat.mod_small by exact Hc.
    repeat split. intros j Hj. lia.
  - destruct (take_one_at c Hc) as [r [Hr Ht]].
    destruct (IH ((c + 1) mod k) (mod_k_lt _)) as [rs [Hm [Hl Hn]]].
    exists (r :: rs). cbn [take_many]. rewrite Ht. cbn [bind]. rewrite Hm.
    cbn [bind]. repeat split.
    + do 3 f_equal. rewrite Nat.Div0.add_mod_idemp_l. f_equal. lia.
    + simpl. now rewrite Hl.
    + intros [|j] Hj.
      * simpl. rewrite Nat.add_0_r, Nat.mod_small by exact Hc. now rewrite Hr.
      * simpl. rewrite Hn by lia. rewrite Nat.Div0.add_mod_idemp_l.
        do 2 f_equal. lia.
Qed.

Lemma nth_error_ext_eq (A : Type) (l1 l2 : list A) :
  List.length l1 = List.length l2 ->
  (forall j, (j < List.length l1)%nat -> nth_error l1 j = nth_error l2 j) ->
  l1 = l2.
Proof.
  revert l2. induction l1 as [|a l1 IH]; intros [|b l2] Hl H;
    try discriminate; [reflexivity|].
  simpl in Hl. f_equal.
  - specialize (H 0%nat). simpl in H. assert (Some a = Some b) by (apply H; lia).
    congruence.
  - apply IH; [lia|]. intros j Hj. apply (H (S j)). simpl. lia.
Qed.

(** A full round from a fresh cursor returns the images themselves, in
    order, and brings the cursor back to the start. *)
Lemma take_many_round :
  take_many k (mkProvider prompt images 0)
  = Ok (images, mkProvider prompt images 0).
Proof.
  destruct (take_many_from k 0%nat) as [rs [Hm [Hl Hn]]]; [lia|].
  rewrite Hm. simpl. rewrite Nat.Div0.mod_same.
  do 2 f_equal. apply nth_error_ext_eq; [exact Hl|].
  intros j Hj. rewrite Hn by lia. simpl. rewrite Nat.mod_small; [reflexivity|lia].
Qed.

End RoundRobin.

(** C2.  A provider built over a class directory with [k >= 1] plain files
    starts with the cursor at 0; after any number [n] of [take_one] calls
    the cursor is [n mod k], so inside [0, k), and the next call returns the
    image under it and moves it to [(cursor + 1) mod k]; [k] calls in a row
    return the [k] image paths, each once, in the order of the listing, and
    leave the provider as it started, so the call after them returns the
    first image again.  With no plain file in the directory the constructor
    raises. *)
Theorem class_provider_round_robin
    (class_data_root : string) (root : list (string * Node)) (prompt : string) :
  let files := class_files root prompt in
  let k := List.length files in
  (k = 0%nat -> raises (ClassDataProvider_init class_data_root root prompt))
  /\ ((1 <= k)%nat ->
      exists p,
        ClassDataProvider_init class_data_root root prompt = Ok p
        /\ class_images p = map (join (join class_data_root prompt)) files
        /\ cursor p = 0%nat
        /\ (forall n, exists rs q,
              take_many n p = Ok (rs, q)
              /\ class_images q = class_images p
              /\ cursor q = (n mod k)%nat
              /\ (cursor q < k)%nat
              /\ exists r q',
                   take_one q = Ok (r, q')
                   /\ nth_error (class_images p) (cursor q) = Some r
                   /\ cursor q' = ((cursor q + 1) mod k)%nat
                   /\ (cursor q' < k)%nat)
        /\ take_many k p = Ok (class_images p, p)
        /\ exists first q,
             nth_error (class_images p) 0 = Some first
             /\ take_one p = Ok (first, q)).
Proof.
  intros files k. unfold ClassDataProvider_init.
  assert (E : forall l,
             lookup prompt root = Some (Dir l) ->
             map (fun x => join (join class_data_root prompt) (fst x))
                 (List.filter (fun x => negb (is_dir x)) l)
             = map (join (join class_data_root prompt)) files).
  { intros l Hl. unfold files, class_files. rewrite Hl.
    now rewrite map_map. }
  split.
  - intros Hk. destruct (lookup prompt root) as [[|l]|] eqn:Hl; cbn [bind].
    + eexists; reflexivity.
    + rewrite (E l eq_refl), length_map. fold k. rewrite Hk.
      eexists; reflexivity.
    + eexists; reflexivity.
  - intros Hk. destruct (lookup prompt root) as [[|l]|] eqn:Hl;
      try (exfalso; unfold k, files, class_files in Hk; rewrite Hl in Hk;
           simpl in Hk; lia).
    cbn [bind]. rewrite (E l eq_refl).
    set (images := map (join (join class_data_root prompt)) files).
    assert (Hlen : List.length images = k) by apply length_map.
    rewrite Hlen. destruct (k <=? 0)%nat eqn:Hz;
      [apply Nat.leb_le in Hz; lia|].
    assert (Hk' : (1 <= List.length images)%nat) by lia.
    exists (mkProvider prompt images 0). repeat split.
    + intros n.
      destruct (take_many_from prompt images Hk' n 0%nat) as [rs [Hm _]]; [lia|].
      rewrite Hlen in Hm. simpl in Hm.
      destruct (take_one_at prompt images Hk' (n mod k)) as [r [Hr Ht]].
      { rewrite Hlen. apply Nat.mod_upper_bound. lia. }
      exists rs, (mkProvider prompt images (n mod k)). cbn [class_images cursor].
      repeat split; try assumption.
      * apply Nat.mod_upper_bound. lia.
      * rewrite Hlen in Ht. eexists r, _.
        repeat split; try eassumption; cbn [cursor]; try reflexivity.
        apply Nat.mod_upper_bound. lia.
    + cbn [class_images]. rewrite <- Hlen. apply take_many_round. exact Hk'.
    + destruct (take_one_at prompt images Hk' 0%nat) as [r [Hr Ht]]; [lia|].
      exists r. eexists. split; [exact Hr | exact Ht].
Qed.

(** C2 at a class directory with three images and one sub-directory. *)
Lemma class_provider_round_robin_witness :
  let root := [("dog", Dir [("a.jpg", File); ("old", Dir []); ("b.jpg", File);
                            ("c.jpg", File)])] in
  (1 <= List.length (class_files root "dog"))%nat
  /\ exists p,
       ClassDataProvider_init "reg" root "dog" = Ok p
       /\ take_many 3 p
          = Ok (["reg/dog/a.jpg"; "reg/dog/b.jpg"; "reg/dog/c.jpg"], p).
Proof.
  intros root.
  assert (H : (1 <= List.length (class_files root "dog"))%nat)
    by (vm_compute; lia).
  split; [exact H|].
  destruct (proj2 (class_provider_round_robin "reg" root "dog") H)
    as [p [Hp [Hi [_ [_ [Hr _]]]]]].
  exists p. split; [exact Hp|].
  change (List.length (class_files root "dog")) with 3%nat in Hr.
  rewrite Hr, Hi. reflexivity.
Defined.

(** ** The hierarchical data set *)

Lemma raises_bind {A B : Type} (r : result A) (k : A -> result B) :
  raises r -> raises (bind r k).
Proof. intros [e ->]. exists e. reflexivity. Qed.

Lemma ClassDataProvider_init_ok
    (class_data_root : string) (root : list (string * Node)) (prompt : string) :
  (1 <= List.length (class_files root prompt))%nat ->
  exists p, ClassDataProvider_init class_data_root root prompt = Ok p.
Proof.
  unfold class_files, ClassDataProvider_init. intros H.
  destruct (lookup prompt root) as [[|l]|]; try (simpl in H; lia).
  cbn [bind]. rewrite length_map in *.
  destruct (_ <=? 0)%nat eqn:E; [apply Nat.leb_le in E; lia|].
  eexists; reflexivity.
Qed.

Lemma scan_too_many_groups
    (instance_data_root class_data_root : string)
    (class_root : list (string * Node)) (class_subdirs : list (string * Node)) :
  (exists c, In c class_subdirs /\ (5 < List.length (group_dirs c))%nat) ->
  forall acc,
    raises (scan_class_subdirs instance_data_root class_data_root class_root
              class_subdirs acc).
Proof.
  induction class_subdirs as [|c rest IH]; intros [x [Hin Hx]] acc.
  - destruct Hin.
  - cbn [scan_class_subdirs].
    destruct (ClassDataProvider_init class_data_root class_root (fst c))
      as [p|e]; [|exists e; reflexivity].
    cbn [bind]. fold (group_dirs c).
    destruct Hin as [<-|Hin].
    + assert (H0 : (0 <? List.length (group_dirs c))%nat = true)
        by (apply Nat.ltb_lt; lia).
      assert (H5 : (5 <? List.length (group_dirs c))%nat = true)
        by (apply Nat.ltb_lt; lia).
      rewrite H0, H5. cbn [bind]. eexists; reflexivity.
    + destruct (0 <? List.length (group_dirs c))%nat;
        [destruct (5 <? List.length (group_dirs c))%nat|]; cbn [bind];
        try (eexists; reflexivity); apply IH; exists x; auto.
Qed.

Lemma scan_within_limits
    (instance_data_root class_data_root : string)
    (class_root : list (string * Node)) (class_subdirs : list (string * Node)) :
  (forall c, In c class_subdirs ->
     (List.length (group_dirs c) <= 5)%nat
     /\ (1 <= List.length (class_files class_root (fst c)))%nat) ->
  forall acc,
    exists r,
      scan_class_subdirs instance_data_root class_data_root class_root
        class_subdirs acc = Ok r.
Proof.
  induction class_subdirs as [|c rest IH]; intros H acc.
  - eexists; reflexivity.
  - cbn [scan_class_subdirs].
    destruct (H c (or_introl eq_refl)) as [H5 H1].
    destruct (ClassDataProvider_init_ok class_data_root class_root (fst c) H1)
      as [p ->].
    cbn [bind]. fold (group_dirs c).
    assert (E : (5 <? List.length (group_dirs c))%nat = false)
      by (apply Nat.ltb_ge; exact H5).
    rewrite E.
    destruct (0 <? List.length (group_dirs c))%nat; cbn [bind];
      apply IH; intros d Hd; apply H; right; exact Hd.
Qed.

(** C7.  With the instance root an existing directory: no class sub-folder,
    more than three class sub-folders, or a class sub-folder with more than
    five group sub-folders make the constructor raise; with one to three
    class sub-folders, at most five group sub-folders in each and a
    non-empty class image directory for each, the data set is built. *)
Theorem subfolder_dataset_limits
    (instance_data_root class_data_root : string)
    (entries class_root : list (string * Node)) :
  let class_subdirs := List.filter is_dir entries in
  let built :=
    SubfolderModeDataset_init instance_data_root (Some (Dir entries))
      class_data_root class_root in
  (List.length class_subdirs = 0%nat -> raises built)
  /\ ((3 < List.length class_subdirs)%nat -> raises built)
  /\ ((exists c, In c class_subdirs /\ (5 < List.length (group_dirs c))%nat) ->
      raises built)
  /\ ((1 <= List.length class_subdirs <= 3)%nat ->
      (forall c, In c class_subdirs ->
         (List.length (group_dirs c) <= 5)%nat
         /\ (1 <= List.length (class_files class_root (fst c)))%nat) ->
      exists d,
        built = Ok d
        /\ num_instance_images d = List.length (instance_images_path d)).
Proof.
  intros class_subdirs built. unfold built, SubfolderModeDataset_init.
  fold class_subdirs. repeat split.
  - intros H. rewrite H. eexists; reflexivity.
  - intros H. destruct (List.length class_subdirs <=? 0)%nat;
      [eexists; reflexivity|].
    apply Nat.ltb_lt in H. rewrite H. eexists; reflexivity.
  - intros H.
    destruct (List.length class_subdirs <=? 0)%nat; [eexists; reflexivity|].
    destruct (3 <? List.length class_subdirs)%nat; [eexists; reflexivity|].
    apply raises_bind. apply scan_too_many_groups. exact H.
  - intros [H1 H3] H.
    destruct (List.length class_subdirs <=? 0)%nat eqn:E0;
      [apply Nat.leb_le in E0; lia|].
    destruct (3 <? List.length class_subdirs)%nat eqn:E3;
      [apply Nat.ltb_lt in E3; lia|].
    destruct (scan_within_limits instance_data_root class_data_root class_root
                class_subdirs H ([], [])) as [[cl ps] ->].
    cbn [bind]. eexists. split; reflexivity.
Qed.

(** C7 at the boundary: three class sub-folders, one of them with five
    group sub-folders, and a class image for each. *)
Lemma subfolder_dataset_limits_witness :
  let groups := [("g1", Dir [("sks (1).jpg", File)]); ("g2", Dir []);
                 ("g3", Dir []); ("g4", Dir []);
                 ("g5", Dir [("sks (2).jpg", File)])] in
  let entries := [("man", Dir groups); ("readme.txt", File);
                  ("dog", Dir []); ("cat", Dir [("g", Dir [])])] in
  let class_root := [("man", Dir [("1.jpg", File)]);
                     ("dog", Dir [("1.jpg", File)]);
                     ("cat", Dir [("1.jpg", File)])] in
  List.length (List.filter is_dir entries) = 3%nat
  /\ List.length (group_dirs ("man", Dir groups)) = 5%nat
  /\ exists d,
       SubfolderModeDataset_init "inst" (Some (Dir entries)) "reg" class_root
       = Ok d
       /\ num_instance_images d = 2%nat.
Proof.
  intros groups entries class_root.
  split; [reflexivity|]. split; [reflexivity|].
  destruct (proj2 (proj2 (proj2
              (subfolder_dataset_limits "inst" "reg" entries class_root))))
    as [d [Hd Hn]].
  - vm_compute. split; [lia|lia].
  - intros c Hc. vm_compute in Hc.
    destruct Hc as [<-|[<-|[<-|[]]]]; vm_compute; split; lia.
  - exists d. split; [exact Hd|].
    vm_compute in Hd. injection Hd as <-. reflexivity.
Defined.

(** ** Collation *)

Lemma mapM_getitem {A B : Type} (key : string) (f : A -> option B)
    (l : list A) (vs : list B) :
  map f l = map Some vs -> mapM (fun e => getitem key (f e)) l = Ok vs.
Proof.
  revert vs. induction l as [|x l IH]; intros [|v vs] H; try discriminate.
  - reflexivity.
  - simpl in H. injection H as Hx Hl. cbn [mapM]. rewrite Hx. cbn [getitem bind].
    rewrite (IH vs Hl). reflexivity.
Qed.

Lemma torch_stack_uniform (n : nat) (l : list Pixels) :
  (1 <= List.length l)%nat ->
  (forall x, In x l -> List.length x = n) ->
  torch_stack l = Ok l.
Proof.
  destruct l as [|x r]; intros Hl H; [simpl in Hl; lia|].
  unfold torch_stack.
  replace (forallb _ r) with true; [reflexivity|].
  symmetry. apply forallb_forall. intros y Hy. apply Nat.eqb_eq.
  rewrite (H x), (H y); simpl; auto.
Qed.

Lemma le_longest (ids : list (list Z)) (l : list Z) :
  In l ids -> (List.length l <= longest ids)%nat.
Proof.
  induction ids as [|x r IH]; intros H; [destruct H|].
  unfold longest in *. cbn [fold_right]. destruct H as [->|H].
  - lia.
  - specialize (IH H). lia.
Qed.

Lemma tokenizer_pad_rows (pad : Z) (ids : list (list Z)) (row : list Z) :
  In row (tokenizer_pad pad ids) -> List.length row = longest ids.
Proof.
  unfold tokenizer_pad. intros H. apply in_map_iff in H as [l [<- Hl]].
  rewrite length_app, repeat_length. pose proof (le_longest ids l Hl). lia.
Qed.

Lemma tokenizer_pad_nth (pad : Z) (ids : list (list Z)) (j : nat) (l : list Z) :
  nth_error ids j = Some l ->
  nth_error (tokenizer_pad pad ids) j
  = Some (l ++ repeat pad (longest ids - List.length l))%list.
Proof.
  intros H. unfold tokenizer_pad. rewrite nth_error_map, H. reflexivity.
Qed.

(** C8.  For [B >= 1] examples with pixel tensors of one shape:
    without prior preservation the batch holds the [B] instance images and
    the [B] instance token rows; with prior preservation (every example
    carrying its class image and class tokens) it holds the [B] instance
    entries followed by the [B] class entries, [2 B] in all, for the pixels
    and for the token ids alike.  Either way each token row is the
    example's own tokens filled on the right with the pad token up to the
    longest row of the batch. *)
Theorem collate_fn_batch
    (pad_token_id : Z) (examples : list Example) (n : nat)
    (class_pixels : list Pixels) (class_ids : list (list Z)) :
  let B := List.length examples in
  (1 <= B)%nat ->
  (forall e, In e examples -> List.length (instance_images e) = n) ->
  (exists b,
     collate_fn false pad_token_id examples = Ok b
     /\ pixel_values b = map instance_images examples
     /\ input_ids b
        = tokenizer_pad pad_token_id (map instance_prompt_ids examples)
     /\ List.length (pixel_values b) = B
     /\ List.length (input_ids b) = B)
  /\ (map class_images_of examples = map Some class_pixels ->
      map class_prompt_ids examples = map Some class_ids ->
      (forall c, In c class_pixels -> List.length c = n) ->
      exists b,
        collate_fn true pad_token_id examples = Ok b
        /\ pixel_values b
           = (map instance_images examples ++ class_pixels)%list
        /\ input_ids b
           = tokenizer_pad pad_token_id
               (map instance_prompt_ids examples ++ class_ids)%list
        /\ List.length (pixel_values b) = (2 * B)%nat
        /\ List.length (input_ids b) = (2 * B)%nat
        /\ firstn B (pixel_values b) = map instance_images examples
        /\ skipn B (pixel_values b) = class_pixels
        /\ (forall row, In row (input_ids b) ->
              List.length row
              = longest (map instance_prompt_ids examples ++ class_ids)%list)).
Proof.
  intros B HB Hshape. split.
  - unfold collate_fn. cbn [bind].
    rewrite (torch_stack_uniform n).
    + cbn [bind]. eexists. repeat split; cbn [pixel_values input_ids].
      * now rewrite length_map.
      * unfold tokenizer_pad. now rewrite !length_map.
    + now rewrite length_map.
    + intros x Hx. apply in_map_iff in Hx as [e [<- He]]. now apply Hshape.
  - intros Hpx Hids Hcshape.
    assert (Lpx : List.length class_pixels = B).
    { apply (f_equal (@List.length _)) in Hpx. now rewrite !length_map in Hpx. }
    assert (Lids : List.length class_ids = B).
    { apply (f_equal (@List.length _)) in Hids. now rewrite !length_map in Hids. }
    unfold collate_fn.
    rewrite (mapM_getitem _ _ _ _ Hids), (mapM_getitem _ _ _ _ Hpx).
    cbn [bind]. rewrite (torch_stack_uniform n).
    + cbn [bind]. eexists.
      repeat split; cbn [pixel_values input_ids].
      * rewrite length_app, length_map. fold B. lia.
      * unfold tokenizer_pad. rewrite length_map, length_app, length_map.
        fold B. lia.
      * rewrite firstn_app, length_map. fold B. rewrite Nat.sub_diag.
        rewrite firstn_all2 by (rewrite length_map; fold B; lia).
        simpl. apply app_nil_r.
      * rewrite skipn_app, length_map. fold B. rewrite Nat.sub_diag.
        rewrite skipn_all2 by (rewrite length_map; fold B; lia).
        reflexivity.
      * intros row Hrow. now apply tokenizer_pad_rows in Hrow.
    + rewrite length_app, length_map. fold B. lia.
    + intros x Hx. apply in_app_iff in Hx as [Hx|Hx].
      * apply in_map_iff in Hx as [e [<- He]]. now apply Hshape.
      * now apply Hcshape.
Qed.

(** C8 on two examples of two pixels each. *)
Lemma collate_fn_batch_witness :
  let e1 := mkExample [1#2; 0] [49406; 320; 49407]%Z
                      (Some [1; 1]) (Some [49406; 49407]%Z) in
  let e2 := mkExample [0; 0] [49406; 49407]%Z
                      (Some [0; 1#3]) (Some [49406; 1929; 786; 49407]%Z) in
  (1 <= List.length [e1; e2])%nat
  /\ exists b,
       collate_fn true 49407 [e1; e2] = Ok b
       /\ List.length (pixel_values b) = 4%nat
       /\ input_ids b
          = [[49406; 320; 49407; 49407]; [49406; 49407; 49407; 49407];
             [49406; 49407; 49407; 49407]; [49406; 1929; 786; 49407]]%Z.
Proof.
  intros e1 e2.
  assert (H : (1 <= List.length [e1; e2])%nat) by (simpl; lia).
  split; [exact H|].
  destruct (proj2 (collate_fn_batch 49407 [e1; e2] 2
                     [[1; 1]; [0; 1#3]]
                     [[49406; 49407]; [49406; 1929; 786; 49407]]%Z H
                     ltac:(intros e [<-|[<-|[]]]; reflexivity)))
    as [b [Hb [_ [Hi [Hl _]]]]]; try reflexivity.
  - intros c [<-|[<-|[]]]; reflexivity.
  - exists b. split; [exact Hb|]. split; [exact Hl|]. rewrite Hi. reflexivity.
Defined.

(** ** The loss *)

Lemma torch_split_nil {A : Type} (fuel size : nat) :
  torch_split fuel size (@nil A) = [].
Proof. destruct fuel; reflexivity. Qed.

(** A batch of [2 B] entries is chunked into its first [B] and its last
    [B] entries. *)
Lemma torch_chunk_even {A : Type} (t : list A) (B : nat) :
  List.length t = (2 * B)%nat ->
  torch_chunk t 2 = [firstn B t; skipn B t].
Proof.
  intros H. unfold torch_chunk. rewrite H.
  destruct B as [|B].
  - destruct t; [reflexivity | simpl in H; lia].
  - replace ((2 * S B + 2 - 1) / 2)%nat with (S B)
      by (zify; Z.to_euclidean_division_equations; lia).
    replace (2 * S B =? 0)%nat with false by (symmetry; apply Nat.eqb_neq; lia).
    replace (2 * S B)%nat with (S (S (2 * B))) by lia.
    destruct t as [|a t]; [simpl in H; lia|].
    cbn [torch_split]. f_equal.
    assert (Hs : List.length (skipn (S B) (a :: t)) = S B)
      by (rewrite length_skipn, H; lia).
    destruct (skipn (S B) (a :: t)) as [|b s] eqn:E; [simpl in Hs; lia|].
    f_equal.
    + apply firstn_all2. lia.
    + rewrite skipn_all2 by lia. apply torch_split_nil.
Qed.

Lemma chunk_pair_even {A : Type} (t : list A) (B : nat) :
  List.length t = (2 * B)%nat ->
  chunk_pair t = Ok (firstn B t, skipn B t).
Proof. intros H. unfold chunk_pair. now rewrite (torch_chunk_even t B H). Qed.

(** C1.  With prior preservation, on a prediction and a target noise of
    [2 B] examples each, both are split into their first [B] (instance) and
    last [B] (prior) examples, and the loss is the mean over the instance
    examples of each example's mean squared error, plus [prior_loss_weight]
    times the mean squared error over every element of the prior half;
    without prior preservation the loss is the mean squared error over
    every element of the batch.  (Arithmetic is exact, over the
    rationals.) *)
Theorem training_loss_split
    (weight : Q) (noise_pred noise : Tensor) (B : nat) :
  List.length noise_pred = (2 * B)%nat ->
  List.length noise = (2 * B)%nat ->
  chunk_pair noise_pred = Ok (firstn B noise_pred, skipn B noise_pred)
  /\ chunk_pair noise = Ok (firstn B noise, skipn B noise)
  /\ List.length (firstn B noise_pred) = B
  /\ List.length (skipn B noise_pred) = B
  /\ training_loss true weight noise_pred noise
     = Ok (mean (map mean (map2 (map2 sqdiff) (firstn B noise_pred)
                                              (firstn B noise)))
           + weight
             * mean (List.concat (map2 (map2 sqdiff) (skipn B noise_pred)
                                                      (skipn B noise))))%Q
  /\ training_loss false weight noise_pred noise
     = Ok (mean (List.concat (map2 (map2 sqdiff) noise_pred noise))).
Proof.
  intros Hp Hn.
  pose proof (chunk_pair_even noise_pred B Hp) as Cp.
  pose proof (chunk_pair_even noise B Hn) as Cn.
  repeat split; try assumption.
  - rewrite firstn_length_le; lia.
  - rewrite length_skipn. lia.
  - unfold training_loss. rewrite Cp, Cn. reflexivity.
Qed.

(** C1 on a batch of one instance and one prior example of two elements. *)
Lemma training_loss_split_witness :
  let noise_pred := [[1; 3]; [2; 2]]%Q in
  let noise := [[0; 1]; [0; 0]]%Q in
  List.length noise_pred = (2 * 1)%nat
  /\ exists loss,
       training_loss true (1#2) noise_pred noise = Ok loss
       /\ (loss == 9#2)%Q.
Proof.
  intros noise_pred noise. split; [reflexivity|].
  destruct (training_loss_split (1#2) noise_pred noise 1 eq_refl eq_refl)
    as [_ [_ [_ [_ [H _]]]]].
  eexists. split; [exact H|]. vm_compute. reflexivity.
Defined.

(** ** The start of [main] *)

(** C10.  With [--subfolder_mode], whatever the other arguments say, the
    arguments the rest of [main] works with have prior preservation on,
    captions from file names on and the prior loss weight at 1.0; the
    overrides touch nothing else that the two other adjustments (seed,
    text-encoder switch) do not, and happen before anything else is
    done. *)
Theorem subfolder_mode_overrides (args : Args) (env : Env) :
  subfolder_mode args = true ->
  let a := subfolder_overrides args in
  (with_prior_preservation a = true
   /\ image_captions_filename a = true
   /\ prior_loss_weight a = 1%Q
   /\ subfolder_mode a = true
   /\ output_dir a = output_dir args
   /\ max_train_steps a = max_train_steps args
   /\ train_text_encoder a = train_text_encoder args
   /\ save_n_steps a = save_n_steps args)
  /\ forall args' i,
       main_prelude args env = Ok (args', i) ->
       with_prior_preservation args' = true
       /\ image_captions_filename args' = true
       /\ prior_loss_weight args' = 1%Q
       /\ i = save_starting_step args.
Proof.
  intros H a. split.
  - unfold a, subfolder_overrides. rewrite H. cbn. repeat split. exact H.
  - intros args' i. unfold main_prelude.
    destruct (_ && _ && _); [discriminate|].
    intros E. injection E as <- <-.
    assert (S : subfolder_mode (default_seed args) = true).
    { unfold default_seed. destruct (seed args) as [s|]; [|exact H].
      destruct (s =? 0)%Z; exact H. }
    unfold text_encoder_switch, subfolder_overrides. rewrite S.
    destruct (_ <=? 1)%Z; cbn; repeat split.
Qed.

(** C10 on a command line that asks for none of the three. *)
Lemma subfolder_mode_overrides_witness :
  let args := mkArgs true 0 "convert.py" false (1#2) "out" None false 1
                     (Some 10%Z) 1 1 1 1000000 false "sessions" false in
  subfolder_mode args = true
  /\ exists args' i,
       main_prelude args (mkEnv true 1 5) = Ok (args', i)
       /\ with_prior_preservation args' = true
       /\ image_captions_filename args' = true
       /\ prior_loss_weight args' = 1%Q.
Proof.
  intros args. split; [reflexivity|].
  eexists _, _. split; [reflexivity|].
  destruct (proj2 (subfolder_mode_overrides args (mkEnv true 1 5) eq_refl)
              _ _ eq_refl) as [H1 [H2 [H3 _]]].
  repeat split; assumption.
Defined.


(** ** The session file *)

Lemma load_session_missing (args : Args) (w : World) :
  session_file w = None ->
  load_session args w = Ok (fresh_session, with_training_dir args w).
Proof.
  intros H. unfold load_session, with_training_dir, fresh_session.
  destruct (exists_path _ w); cbn; rewrite H; reflexivity.
Qed.

Lemma session_file_with_training_dir (args : Args) (w : World) :
  session_file (with_training_dir args w) = session_file w.
Proof. unfold with_training_dir. destruct (exists_path _ w); reflexivity. Qed.

Lemma load_session_present (args : Args) (w : World) (f : SessionFile) :
  session_file w = Some f ->
  load_session args w
  = let size := Z.of_nat (String.length (text f)) in
    if (0 <? size)%Z && (size <? 10000)%Z
    then match parsed f with
         | Some j => Ok (j, with_training_dir args w)
         | None => Raise JSONDecodeError
         end
    else Ok (fresh_session, with_training_dir args w).
Proof.
  intros H. unfold load_session.
  fold (with_training_dir args w).
  rewrite session_file_with_training_dir, H. reflexivity.
Qed.

(** C9 (as the code has it).  Loading the session yields a session with
    [session_step = 0], without raising, when the file is missing, empty,
    or 10000 bytes long or more.  A file of 1 to 9999 bytes is handed to
    the JSON parser: what the parser returns becomes the session, and a
    text that is not JSON raises [JSONDecodeError]. *)
Theorem load_session_guard (args : Args) (w : World) :
  session_step_of fresh_session = Ok (JInt 0)
  /\ (session_file w = None ->
      load_session args w = Ok (fresh_session, with_training_dir args w))
  /\ (forall f,
        session_file w = Some f ->
        let size := Z.of_nat (String.length (text f)) in
        ((size = 0 \/ 10000 <= size)%Z ->
         load_session args w = Ok (fresh_session, with_training_dir args w))
        /\ ((0 < size < 10000)%Z ->
            (parsed f = None -> load_session args w = Raise JSONDecodeError)
            /\ (forall j, parsed f = Some j ->
                  load_session args w = Ok (j, with_training_dir args w)))).
Proof.
  split; [reflexivity|]. split; [apply load_session_missing|].
  intros f Hf size. rewrite (load_session_present args w f Hf).
  cbv zeta. fold size.
  split.
  - intros [H|H].
    + rewrite H. reflexivity.
    + replace (size <? 10000)%Z with false by (symmetry; apply Z.ltb_ge; lia).
      rewrite andb_false_r. reflexivity.
  - intros [H0 H1].
    replace (0 <? size)%Z with true by (symmetry; apply Z.ltb_lt; lia).
    replace (size <? 10000)%Z with true by (symmetry; apply Z.ltb_lt; lia).
    cbn [andb]. split.
    + intros ->. reflexivity.
    + intros j ->. reflexivity.
Qed.

(** C9 on the 21 bytes a run of 120 steps leaves behind. *)
Lemma load_session_guard_witness :
  let j := JObj [("session_step", JInt 120)] in
  let f := mkSessionFile (JsonDump.dumps j) (Some j) in
  let w := mkWorld [] (Some f) None false [] in
  let args := mkArgs false 0 "convert.py" false 1 "out" None false 1
                     (Some 2%Z) 1 1 1 1000000 false "sessions" false in
  (0 < Z.of_nat (String.length (text f)) < 10000)%Z
  /\ exists w', load_session args w = Ok (j, w').
Proof.
  intros j f w args.
  assert (H : (0 < Z.of_nat (String.length (text f)) < 10000)%Z)
    by (vm_compute; split; reflexivity).
  split; [exact H|]. eexists.
  exact (proj2 (proj2 (proj2 (proj2 (load_session_guard args w)) f eq_refl) H)
           _ eq_refl).
Defined.

(** C9, as the specification words it, fails on the code: a short session
    file that is not JSON makes the load raise, and the run with it. *)
Lemma corrupt_session_is_fatal :
  let f := mkSessionFile "{session_step: 12" None in
  let w := mkWorld [] (Some f) None false [] in
  let args := mkArgs false 0 "convert.py" false 1 "out" None false 1
                     (Some 2%Z) 1 1 1 1000000 false "sessions" false in
  load_session args w = Raise JSONDecodeError
  /\ main args (mkEnv true 1 5) w = Raise JSONDecodeError.
Proof. split; reflexivity. Qed.

(** ** The training loop *)

Lemma optimizer_steps_app (l1 l2 : list Event) :
  optimizer_steps (l1 ++ l2)
  = (optimizer_steps l1 + optimizer_steps l2)%nat.
Proof. unfold optimizer_steps. now rewrite filter_app, length_app. Qed.

Lemma snapshots_app (l1 l2 : list Event) :
  snapshots (l1 ++ l2) = (snapshots l1 ++ snapshots l2)%list.
Proof. unfold snapshots. apply flat_map_app. Qed.

Lemma same_training_refl (st : State) : same_training st st.
Proof. repeat split. Qed.

Lemma same_training_trans (a b c : State) :
  same_training a b -> same_training b c -> same_training a c.
Proof.
  unfold same_training. intros H1 H2.
  destruct H1 as (?&?&?&?&?&?&?&?&?). destruct H2 as (?&?&?&?&?&?&?&?&?).
  repeat split; congruence.
Qed.

(** A step of file-system work: the world gains events that are neither
    optimizer steps nor snapshots and keeps its frozen snapshot and
    session file. *)
Lemma same_training_world (st : State) (w : World) (gs i0 : Z) :
  frozen w = frozen (world st) ->
  session_file w = session_file (world st) ->
  unet_bin w = unet_bin (world st) ->
  optimizer_steps (events w) = optimizer_steps (events (world st)) ->
  snapshots (events w) = snapshots (events (world st)) ->
  same_training st
    (mkState (global_step st) i0 (accum st) (unet st) (text_encoder st) w).
Proof. intros. repeat split; assumption. Qed.

Lemma periodic_export_same
    (args : Args) (env : Env) (m : Z) (session : Json) (st st' : State) :
  periodic_export args env m session st = Ok st' -> same_training st st'.
Proof.
  unfold periodic_export.
  destruct (save_n_steps args >=? 200)%Z;
    [|intros E; injection E as <-; apply same_training_refl].
  destruct (_ && _);
    [|intros E; injection E as <-; apply same_training_refl].
  destruct (session_step_of session) as [v|]; [|discriminate].
  cbn [bind]. destruct (add_int v (global_step st)) as [n|]; [|discriminate].
  cbn [bind].
  set (save_dir := PyStr.replace " " "_" _).
  destruct (is_main_process env).
  - destruct (text_encoder_bound args); cbn [negb]; [|discriminate].
    intros E. injection E as <-.
    apply same_training_world; try exact 0%Z;
      destruct (exists_path save_dir (world st));
      destruct (train_text_encoder args); cbn -[optimizer_steps snapshots];
      destruct (frozen (world st)) eqn:F;
      destruct (save_intermediary_dirs args =? 0)%Z;
      cbn -[optimizer_steps snapshots];
      rewrite ?optimizer_steps_app, ?snapshots_app; cbn;
      rewrite ?Nat.add_0_r, ?app_nil_r, ?F; reflexivity.
  - intros E. injection E as <-.
    destruct (exists_path save_dir (world st)); repeat split;
      cbn -[optimizer_steps snapshots];
      rewrite ?optimizer_steps_app, ?snapshots_app; cbn;
      rewrite ?Nat.add_0_r, ?app_nil_r; reflexivity.
Qed.

Lemma periodic_export_ok
    (args : Args) (env : Env) (m : Z) (session : Json) (s0 : Z) (st : State) :
  session_step_of session = Ok (JInt s0) ->
  (is_main_process env = true -> text_encoder_bound args = true) ->
  exists st', periodic_export args env m session st = Ok st'.
Proof.
  intros H B. unfold periodic_export. rewrite H. cbn [bind add_int].
  destruct (save_n_steps args >=? 200)%Z; [|eexists; reflexivity].
  destruct (_ && _); [|eexists; reflexivity].
  destruct (is_main_process env); [|eexists; reflexivity].
  rewrite (B eq_refl). eexists; reflexivity.
Qed.

(** What freezing leaves alone. *)
Lemma freeze_counters (args : Args) (env : Env) (st : State) :
  let st' := freeze_text_encoder args env st in
  global_step st' = global_step st
  /\ accum st' = accum st
  /\ unet st' = unet st
  /\ text_encoder st' = text_encoder st
  /\ session_file (world st') = session_file (world st)
  /\ unet_bin (world st') = unet_bin (world st)
  /\ optimizer_steps (events (world st'))
     = optimizer_steps (events (world st)).
Proof.
  unfold freeze_text_encoder.
  destruct (_ && _ && _); [|repeat split].
  destruct (is_main_process env); [destruct (frozen (world st))|];
    repeat split; cbn -[optimizer_steps];
    rewrite ?optimizer_steps_app; cbn; lia.
Qed.

Lemma advance_global_step (args : Args) (e : bool) (st : State) :
  global_step (advance args e st)
  = (global_step st
     + if snd (accumulate args e st) then 1 else 0)%Z.
Proof.
  unfold advance, accumulate, count_step, optimizer_step.
  destruct e; cbn; [reflexivity|].
  destruct (_ =? 0)%Z; cbn; lia.
Qed.

Lemma advance_accum (args : Args) (e : bool) (st : State) :
  accum (advance args e st) = if e then 0%Z else (accum st + 1)%Z.
Proof.
  unfold advance, accumulate, count_step, optimizer_step.
  destruct e; cbn; [reflexivity|].
  destruct (_ =? 0)%Z; reflexivity.
Qed.

Lemma sync_at (args : Args) (e : bool) (st : State) :
  snd (accumulate args e st)
  = if e then true
    else ((accum st + 1) mod gradient_accumulation_steps args =? 0)%Z.
Proof. unfold accumulate. destruct e; reflexivity. Qed.

Lemma loop_body_unfold
    (args : Args) (env : Env) (m : Z) (session : Json) (e : bool) (st : State) :
  loop_body args env m session e st
  = if (m =? 0)%Z then Raise ZeroDivisionError
    else if (global_step (advance args e st) >=? m)%Z
         then Ok (advance args e st, true)
         else
           st3 <- periodic_export args env m session
                    (freeze_text_encoder args env (advance args e st)) ;;
           Ok (st3, false).
Proof.
  unfold loop_body, advance. destruct (accumulate args e st) as [st1 sync].
  reflexivity.
Qed.

Lemma advance_world (args : Args) (e : bool) (st : State) :
  let d := snd (accumulate args e st) in
  unet (advance args e st) = (unet st + if d then 1 else 0)%nat
  /\ text_encoder (advance args e st)
     = (text_encoder st + if d && train_text_encoder args then 1 else 0)%nat
  /\ frozen (world (advance args e st)) = frozen (world st)
  /\ session_file (world (advance args e st)) = session_file (world st)
  /\ unet_bin (world (advance args e st)) = unet_bin (world st)
  /\ optimizer_steps (events (world (advance args e st)))
     = (optimizer_steps (events (world st)) + if d then 1 else 0)%nat
  /\ snapshots (events (world (advance args e st)))
     = snapshots (events (world st)).
Proof.
  unfold advance, accumulate, count_step, optimizer_step.
  destruct e; [|destruct (_ =? 0)%Z]; destruct (train_text_encoder args);
    cbn -[optimizer_steps snapshots];
    rewrite ?optimizer_steps_app, ?snapshots_app; cbn;
    rewrite ?app_nil_r; repeat split; lia.
Qed.

(** Freezing records one snapshot, of the weights of that moment, when it
    fires on the main process, and none otherwise. *)
Lemma freeze_snapshots (args : Args) (env : Env) (st : State) :
  let fires :=
    train_text_encoder args
    && (global_step st =? stop_text_encoder_training args)%Z
    && (global_step st >=? 30)%Z
    && is_main_process env in
  snapshots (events (world (freeze_text_encoder args env st)))
  = (snapshots (events (world st))
     ++ if fires then [(frz_dir_of args, text_encoder st)] else [])%list
  /\ frozen (world (freeze_text_encoder args env st))
     = if fires then Some (text_encoder st) else frozen (world st).
Proof.
  unfold freeze_text_encoder.
  destruct (_ && _ && _); cbn [andb]; [|now rewrite app_nil_r].
  destruct (is_main_process env);
    [destruct (frozen (world st))|];
    cbn -[snapshots]; rewrite ?snapshots_app; cbn; rewrite ?app_nil_r;
    split; reflexivity.
Qed.

Lemma loop_body_inv
    (args : Args) (env : Env) (m : Z) (session : Json) (e : bool)
    (st st' : State) (stop : bool) :
  loop_body args env m session e st = Ok (st', stop) ->
  m <> 0%Z
  /\ stop = (global_step (advance args e st) >=? m)%Z
  /\ (stop = true -> st' = advance args e st)
  /\ (stop = false ->
      same_training (freeze_text_encoder args env (advance args e st)) st').
Proof.
  rewrite loop_body_unfold.
  destruct (m =? 0)%Z eqn:M; [discriminate|]. apply Z.eqb_neq in M.
  destruct (global_step (advance args e st) >=? m)%Z.
  - intros E. injection E as <- <-.
    repeat split; try assumption; intros; congruence.
  - destruct (periodic_export _ _ _ _ _) as [st3|] eqn:E; [|discriminate].
    cbn [bind]. intros E'. injection E' as <- <-.
    apply periodic_export_same in E.
    repeat split; try assumption; intros; try discriminate; apply E.
Qed.

Lemma loop_body_ok
    (args : Args) (env : Env) (m : Z) (session : Json) (s0 : Z) (e : bool)
    (st : State) :
  m <> 0%Z ->
  session_step_of session = Ok (JInt s0) ->
  (is_main_process env = true -> text_encoder_bound args = true) ->
  exists st',
    loop_body args env m session e st
    = Ok (st', (global_step (advance args e st) >=? m)%Z).
Proof.
  intros M Hs B. rewrite loop_body_unfold.
  apply Z.eqb_neq in M. rewrite M.
  destruct (global_step (advance args e st) >=? m)%Z; [eexists; reflexivity|].
  destruct (periodic_export_ok args env m session s0
              (freeze_text_encoder args env (advance args e st)) Hs B)
    as [st3 ->].
  eexists; reflexivity.
Qed.

(** *** Counting the boundaries of an epoch *)

Lemma syncs_nonneg (gas : Z) (r : nat) : forall a, (0 <= syncs gas a r)%Z.
Proof.
  induction r as [|r IH]; intros a; cbn [syncs]; [lia|].
  destruct (r =? 0)%nat; [lia|].
  specialize (IH (a + 1)%Z). destruct (_ =? 0)%Z; lia.
Qed.

Lemma boundary_floor (gas a : Z) :
  (1 <= gas)%Z ->
  ((a + 1) / gas = a / gas + if ((a + 1) mod gas =? 0) then 1 else 0)%Z.
Proof.
  intros H. destruct ((a + 1) mod gas =? 0)%Z eqn:E.
  - apply Z.eqb_eq in E. Z.to_euclidean_division_equations. nia.
  - apply Z.eqb_neq in E. Z.to_euclidean_division_equations. nia.
Qed.

Lemma syncs_closed (gas : Z) (r : nat) :
  (1 <= gas)%Z ->
  forall a,
    syncs gas a (S r) = ((a + Z.of_nat r) / gas - a / gas + 1)%Z.
Proof.
  intros H. induction r as [|r IH]; intros a.
  - cbn [syncs Nat.eqb]. rewrite Z.add_0_r. lia.
  - change (syncs gas a (S (S r)))
      with ((if ((a + 1) mod gas =? 0)%Z then 1 else 0)
            + syncs gas (a + 1) (S r))%Z.
    rewrite IH, (boundary_floor gas a H).
    replace (a + 1 + Z.of_nat r)%Z with (a + Z.of_nat (S r))%Z by lia.
    lia.
Qed.

Lemma syncs_per_epoch (gas : Z) (L : nat) :
  (1 <= gas)%Z -> syncs gas 0 L = ceil_div (Z.of_nat L) gas.
Proof.
  intros H. unfold ceil_div. destruct L as [|r]; [reflexivity|].
  rewrite syncs_closed by exact H.
  rewrite Z.div_0_l by lia.
  replace (- Z.of_nat (S r))%Z with (- (Z.of_nat r + 1))%Z by lia.
  Z.to_euclidean_division_equations. nia.
Qed.

Lemma ceil_div_bounds (m n : Z) :
  (1 <= n)%Z ->
  ((ceil_div m n - 1) * n < m <= ceil_div m n * n)%Z.
Proof.
  intros H. unfold ceil_div. Z.to_euclidean_division_equations. nia.
Qed.

(** *** The loop reaches the planned number of steps *)

Section TrainingLoop.

Variables (args : Args) (env : Env) (m : Z) (session : Json) (s0 : Z).
Hypothesis gas_pos : (1 <= gradient_accumulation_steps args)%Z.
Hypothesis m_pos : (0 < m)%Z.
Hypothesis session_int : session_step_of session = Ok (JInt s0).
Hypothesis bound_on_main :
  is_main_process env = true -> text_encoder_bound args = true.

(** A property of the state that every pass of the loop body keeps. *)
Variable P : State -> Prop.
Hypothesis P_body :
  forall e st st' stop,
    P st -> (global_step st < m)%Z ->
    loop_body args env m session e st = Ok (st', stop) -> P st'.

Let body := loop_body args env m session.
Let gas := gradient_accumulation_steps args.

Lemma body_pass (e : bool) (st : State) :
  P st -> (global_step st < m)%Z ->
  exists st',
    body e st = Ok (st', (global_step st' >=? m)%Z)
    /\ P st'
    /\ global_step st'
       = (global_step st + if snd (accumulate args e st) then 1 else 0)%Z
    /\ accum st' = (if e then 0 else accum st + 1)%Z.
Proof.
  intros HP Hlt. unfold body.
  assert (M : m <> 0%Z) by lia.
  destruct (loop_body_ok args env m session s0 e st M session_int
              bound_on_main) as [st' E].
  assert (HP' := P_body _ _ _ _ HP Hlt E).
  destruct (loop_body_inv _ _ _ _ _ _ _ _ E) as (_ & Hstop & Ht & Hf).
  assert (G : global_step st' = global_step (advance args e st)
              /\ accum st' = accum (advance args e st)).
  { destruct (global_step (advance args e st) >=? m)%Z.
    - rewrite (Ht eq_refl). split; reflexivity.
    - destruct (Hf eq_refl) as (G1 & G2 & _).
      destruct (freeze_counters args env (advance args e st)) as (F1 & F2 & _).
      split; congruence. }
  destruct G as [G1 G2]. exists st'.
  rewrite G1, G2, advance_global_step, advance_accum.
  rewrite <- advance_global_step, <- G1 in *.
  rewrite G1 at 1. repeat split; try assumption.
  rewrite E. now rewrite G1.
Qed.

Lemma batches_run (r : nat) :
  forall st,
    P st -> (global_step st < m)%Z ->
    exists st',
      batches_loop body r st = Ok st'
      /\ P st'
      /\ global_step st'
         = Z.min m (global_step st + syncs gas (accum st) r)
      /\ ((global_step st + syncs gas (accum st) r < m)%Z ->
          r <> 0%nat -> accum st' = 0%Z).
Proof.
  induction r as [|r IH]; intros st HP Hlt.
  - exists st. cbn [batches_loop syncs]. repeat split; try assumption.
    + lia.
    + intros _ H. now contradiction H.
  - destruct (body_pass (r =? 0)%nat st HP Hlt) as (st1 & E & HP1 & G & A).
    cbn [batches_loop syncs]. rewrite E. cbn [bind].
    rewrite sync_at in G. fold gas in G.
    assert (Hs := syncs_nonneg gas r (accum st + 1)).
    rewrite Z.geb_leb.
    destruct (r =? 0)%nat eqn:R.
    + apply Nat.eqb_eq in R. subst r.
      exists st1. destruct (m <=? global_step st1)%Z; cbn [batches_loop];
        repeat split; try assumption; lia.
    + apply Nat.eqb_neq in R.
      destruct (Z.leb_spec m (global_step st1)) as [Stop|Go].
      * exists st1. repeat split; try assumption;
          destruct (_ =? 0)%Z; lia.
      * destruct (IH st1 HP1 Go) as (st' & E' & HP' & G' & A').
        rewrite A in G', A'.
        exists st'. repeat split; try assumption.
        -- rewrite G', G. f_equal. lia.
        -- intros H _. apply A'; [|exact R]. rewrite G. lia.
Qed.

Lemma epochs_run (L : nat) (e : nat) :
  L <> 0%nat ->
  forall st,
    P st -> accum st = 0%Z ->
    (e = 0%nat -> global_step st = m) ->
    (e <> 0%nat ->
     (global_step st + (Z.of_nat e - 1) * syncs gas 0 L < m
      <= global_step st + Z.of_nat e * syncs gas 0 L)%Z) ->
    exists st',
      epochs_loop body L e st = Ok st' /\ P st' /\ global_step st' = m.
Proof.
  intros HL. induction e as [|e IH]; intros st HP A H0 H1.
  - exists st. repeat split; [assumption | now apply H0].
  - assert (Hn := syncs_nonneg gas L 0).
    specialize (H1 (Nat.neq_succ_0 e)).
    rewrite Nat2Z.inj_succ in H1.
    assert (Hlt : (global_step st < m)%Z) by nia.
    destruct (batches_run L st HP Hlt) as (st1 & E & HP1 & G & A1).
    rewrite A in G, A1.
    cbn [epochs_loop]. rewrite E. cbn [bind].
    destruct e as [|e'].
    + exists st1. cbn [epochs_loop]. repeat split; [assumption|].
      rewrite G. change (Z.of_nat 0) with 0%Z in H1. lia.
    + rewrite Nat2Z.inj_succ in H1.
      assert (Hfar : (global_step st + syncs gas 0 L < m)%Z) by nia.
      apply IH; [exact HP1 | | |].
      * apply A1; [exact Hfar | exact HL].
      * intros H. discriminate H.
      * intros _. rewrite G, Nat2Z.inj_succ. nia.
Qed.

End TrainingLoop.

(** What one pass of the loop body does to the counters, the weights and
    the records of the trace. *)
Lemma loop_body_counters
    (args : Args) (env : Env) (m : Z) (session : Json) (e : bool)
    (st st' : State) (stop : bool) :
  loop_body args env m session e st = Ok (st', stop) ->
  let d := snd (accumulate args e st) in
  global_step st' = (global_step st + if d then 1 else 0)%Z
  /\ unet st' = (unet st + if d then 1 else 0)%nat
  /\ text_encoder st'
     = (text_encoder st + if d && train_text_encoder args then 1 else 0)%nat
  /\ session_file (world st') = session_file (world st)
  /\ unet_bin (world st') = unet_bin (world st)
  /\ optimizer_steps (events (world st'))
     = (optimizer_steps (events (world st)) + if d then 1 else 0)%nat.
Proof.
  intros E d.
  destruct (loop_body_inv _ _ _ _ _ _ _ _ E) as (_ & _ & Ht & Hf).
  destruct (advance_world args e st) as (U & T & _ & S & B & O & _).
  fold d in U, T, O.
  assert (G := advance_global_step args e st). fold d in G.
  destruct stop.
  - rewrite (Ht eq_refl). repeat split; assumption.
  - destruct (Hf eq_refl) as (G1 & _ & U1 & T1 & _ & S1 & B1 & O1 & _).
    destruct (freeze_counters args env (advance args e st))
      as (F1 & _ & F3 & F4 & F5 & F6 & F7).
    repeat split; congruence.
Qed.

(** What one pass does to the snapshots: one more exactly when the pass
    does not end in [break] and the freeze fires on the main process. *)
Lemma loop_body_snapshots
    (args : Args) (env : Env) (m : Z) (session : Json) (e : bool)
    (st st' : State) (stop : bool) :
  loop_body args env m session e st = Ok (st', stop) ->
  let fires :=
    negb stop
    && (train_text_encoder args
        && (global_step st' =? stop_text_encoder_training args)%Z
        && (global_step st' >=? 30)%Z
        && is_main_process env) in
  snapshots (events (world st'))
  = (snapshots (events (world st))
     ++ if fires then [(frz_dir_of args, text_encoder st')] else [])%list
  /\ frozen (world st')
     = if fires then Some (text_encoder st') else frozen (world st).
Proof.
  intros E.
  destruct (loop_body_inv _ _ _ _ _ _ _ _ E) as (_ & _ & Ht & Hf).
  destruct (advance_world args e st) as (_ & _ & Fz & _ & _ & _ & Sn).
  destruct stop; cbn [negb andb].
  - rewrite (Ht eq_refl), app_nil_r. split; assumption.
  - destruct (Hf eq_refl) as (G1 & _ & _ & T1 & Fz1 & _ & _ & _ & Sn1).
    destruct (freeze_counters args env (advance args e st))
      as (F1 & _ & _ & F4 & _).
    destruct (freeze_snapshots args env (advance args e st)) as (Sn2 & Fz2).
    rewrite Sn1, Fz1, Sn2, Fz2, Sn, Fz, G1, T1, F1, F4.
    split; reflexivity.
Qed.

Lemma plan_steps_inv (args : Args) (env : Env) (m ep : Z) :
  plan_steps args env = Ok (m, ep) ->
  (1 <= gradient_accumulation_steps args)%Z ->
  let n := ceil_div (Z.of_nat (dataloader_len env))
                    (gradient_accumulation_steps args) in
  dataloader_len env <> 0%nat
  /\ (1 <= n)%Z
  /\ ep = ceil_div m n
  /\ m = match max_train_steps args with
         | None => (num_train_epochs args * n)%Z
         | Some v => v
         end.
Proof.
  intros E Hg n. unfold plan_steps in E.
  destruct (gradient_accumulation_steps args =? 0)%Z; [discriminate|].
  fold n in E.
  destruct (n =? 0)%Z eqn:N; [discriminate|]. apply Z.eqb_neq in N.
  injection E as <- <-.
  assert (Hn : (0 <= n)%Z).
  { unfold n, ceil_div. Z.to_euclidean_division_equations. nia. }
  repeat split; try lia.
  intros L0. apply N. unfold n. rewrite L0. reflexivity.
Qed.

(** The loop ends, and it ends with [global_step = max_train_steps],
    whatever property [P] the body keeps along the way. *)
Lemma training_loop_run
    (args : Args) (env : Env) (m ep : Z) (session : Json) (s0 : Z)
    (P : State -> Prop) (st0 : State) :
  (1 <= gradient_accumulation_steps args)%Z ->
  (0 <= m)%Z ->
  plan_steps args env = Ok (m, ep) ->
  session_step_of session = Ok (JInt s0) ->
  (is_main_process env = true -> text_encoder_bound args = true) ->
  (forall e st st' stop,
     P st -> (global_step st < m)%Z ->
     loop_body args env m session e st = Ok (st', stop) -> P st') ->
  P st0 -> global_step st0 = 0%Z -> accum st0 = 0%Z ->
  exists st,
    epochs_loop (loop_body args env m session) (dataloader_len env)
                (Z.to_nat ep) st0 = Ok st
    /\ P st /\ global_step st = m.
Proof.
  intros Hg Hm Hplan Hs Hbound HP P0 G0 A0.
  destruct (plan_steps_inv args env m ep Hplan Hg) as (HL & Hn & -> & _).
  set (n := ceil_div (Z.of_nat (dataloader_len env))
                     (gradient_accumulation_steps args)) in *.
  assert (Hb := ceil_div_bounds m n Hn).
  destruct (Z.eq_dec m 0) as [->|M].
  - assert (ceil_div 0 n = 0%Z) as -> by nia.
    exists st0. repeat split; assumption.
  - assert (Hep : (1 <= ceil_div m n)%Z) by nia.
    apply (epochs_run args env m session s0); try assumption.
    + lia.
    + intros H. lia.
    + intros _. rewrite Z2Nat.id by lia.
      rewrite syncs_per_epoch by exact Hg. fold n. rewrite G0. lia.
Qed.

(** *** After the loop *)

Lemma lookup_dict_set {A : Type} (key : string) (v : A)
    (d : list (string * A)) :
  lookup key (dict_set key v d) = Some v.
Proof.
  induction d as [|[k w] r IH]; cbn [dict_set lookup].
  - now rewrite String.eqb_refl.
  - destruct (String.eqb key k) eqn:E; cbn [lookup]; rewrite E;
      [reflexivity | exact IH].
Qed.

Lemma session_add_int (session : Json) (s0 n : Z) :
  session_step_of session = Ok (JInt s0) ->
  exists session',
    session_add session n = Ok session'
    /\ session_step_of session' = Ok (JInt (s0 + n)).
Proof.
  intros H. unfold session_add. rewrite H. cbn [bind add_int].
  destruct session; try discriminate H.
  eexists. split; [reflexivity|].
  cbn [session_step_of]. now rewrite lookup_dict_set.
Qed.

Lemma load_session_world (args : Args) (w w1 : World) (session : Json) :
  load_session args w = Ok (session, w1) ->
  w1 = with_training_dir args w.
Proof.
  destruct (session_file w) as [f|] eqn:F.
  - rewrite (load_session_present args w f F). cbv zeta.
    destruct (_ && _); [destruct (parsed f)|]; congruence.
  - rewrite (load_session_missing args w F). congruence.
Qed.

Lemma with_training_dir_trace (args : Args) (w : World) :
  optimizer_steps (events (with_training_dir args w))
  = optimizer_steps (events w)
  /\ snapshots (events (with_training_dir args w)) = snapshots (events w)
  /\ unet_bin (with_training_dir args w) = unet_bin w
  /\ frozen (with_training_dir args w) = frozen w.
Proof.
  unfold with_training_dir. destruct (exists_path _ w);
    cbn -[optimizer_steps snapshots];
    rewrite ?optimizer_steps_app, ?snapshots_app; cbn;
    rewrite ?app_nil_r; repeat split; lia.
Qed.

Lemma main_unfold (args a : Args) (env : Env) (w w1 : World)
    (i0 m ep : Z) (session : Json) :
  main_prelude args env = Ok (a, i0) ->
  plan_steps a env = Ok (m, ep) ->
  (m <= sys_maxsize)%Z ->
  load_session a w = Ok (session, w1) ->
  main args env w
  = st <- epochs_loop (loop_body a env m session) (dataloader_len env)
            (Z.to_nat ep) (initial_state i0 w1) ;;
    finish a env m session st.
Proof.
  intros H1 H2 Hm H3. unfold main. rewrite H1. cbn [bind].
  rewrite H2. cbn [bind]. unfold progress_bar_total.
  replace (sys_maxsize <? m)%Z with false
    by (symmetry; apply Z.ltb_ge; exact Hm).
  cbn [bind]. rewrite H3. reflexivity.
Qed.

(** The final export on a process on which [text_encoder] is still bound:
    it only adds file-system work to the trace; on the main process the
    model is there afterwards, and a snapshot of the text encoder, if there
    is one and the text encoder was trained, is copied over the trained
    one and removed. *)
Lemma final_export_run (args : Args) (env : Env) (st : State) :
  (is_main_process env = true -> text_encoder_bound args = true) ->
  exists w2 tl,
    final_export args env st = Ok w2
    /\ events w2 = (events (world st) ++ tl)%list
    /\ optimizer_steps tl = 0%nat
    /\ snapshots tl = []
    /\ session_file w2 = session_file (world st)
    /\ unet_bin w2 = is_main_process env || unet_bin (world st)
    /\ (is_main_process env = true -> train_text_encoder args = true ->
        forall v, frozen (world st) = Some v ->
          In (RestoreFrozen (frz_dir_of args)
                            (output_dir args ++ "/text_encoder") v) tl
          /\ frozen w2 = None).
Proof.
  intros B. unfold final_export.
  destruct (is_main_process env).
  - rewrite (B eq_refl). cbn [negb].
    destruct (train_text_encoder args);
      [destruct (frozen (world st)) as [v|] eqn:F|];
      cbn [frozen set_unet_bin emit]; rewrite ?F.
    + eexists.
      exists [SavePipeline (output_dir args) (unet st) (text_encoder st);
              RestoreFrozen (frz_dir_of args)
                            (output_dir args ++ "/text_encoder") v;
              Rmtree (frz_dir_of args)].
      split; [reflexivity|].
      cbn [events emit set_frozen set_unet_bin session_file unet_bin frozen].
      rewrite <- !app_assoc.
      repeat split; try reflexivity.
      * injection H1 as <-. cbn. auto.
    + eexists.
      exists [SavePipeline (output_dir args) (unet st) (text_encoder st)].
      split; [reflexivity|].
      cbn [events emit set_unet_bin session_file unet_bin frozen].
      repeat split; try reflexivity; discriminate.
    + eexists.
      exists [SavePipeline (output_dir args) (unet st) (text_encoder st)].
      split; [reflexivity|].
      cbn [events emit set_unet_bin session_file unet_bin frozen].
      repeat split; try reflexivity; discriminate.
  - exists (world st), []. rewrite app_nil_r.
    repeat split; try reflexivity; discriminate.
Qed.

(** The tail of [main] succeeds on a session with an integer step when
    [text_encoder] is still bound where it is read; it only adds
    file-system work to the trace, writes the session with
    [max_train_steps] added, and, when there is a model to convert, ends
    with the conversion to the checkpoint named after the new session
    step. *)
Lemma finish_run
    (args : Args) (env : Env) (m : Z) (session : Json) (s0 : Z) (st : State) :
  session_step_of session = Ok (JInt s0) ->
  (is_main_process env = true -> text_encoder_bound args = true) ->
  exists st' session' tl,
    finish args env m session st = Ok st'
    /\ global_step st' = global_step st
    /\ unet st' = unet st
    /\ text_encoder st' = text_encoder st
    /\ events (world st') = (events (world st) ++ tl)%list
    /\ optimizer_steps tl = 0%nat
    /\ snapshots tl = []
    /\ session_add session m = Ok session'
    /\ session_step_of session' = Ok (JInt (s0 + m))
    /\ session_file (world st') = Some (session_file_of session')
    /\ (is_main_process env || unet_bin (world st) = true ->
        exists tl',
          tl = (tl' ++ [Convert (diffusers_to_ckpt_script_path args)
                                (output_dir args)
                                (final_chkpth args (s0 + m))])%list)
    /\ (is_main_process env = true -> train_text_encoder args = true ->
        forall v, frozen (world st) = Some v ->
          In (RestoreFrozen (frz_dir_of args)
                            (output_dir args ++ "/text_encoder") v) tl
          /\ frozen (world st') = None).
Proof.
  intros Hs B.
  destruct (session_add_int session s0 m Hs) as (session' & Ha & Hs').
  destruct (final_export_run args env st B)
    as (w2 & tl2 & FE & E2 & O2 & S2 & F2 & U2 & R2).
  unfold finish, save_session. rewrite FE. cbn [bind].
  rewrite Ha. cbn [bind].
  unfold save_final_ckpt. rewrite Hs'. cbn [bind add_int].
  rewrite Z.add_0_r.
  set (w3 := emit _ (set_session_file _ _)).
  assert (T : exists tl3,
              events w3 = (events w2 ++ tl3)%list
              /\ optimizer_steps tl3 = 0%nat /\ snapshots tl3 = []
              /\ session_file w3 = Some (session_file_of session')
              /\ unet_bin w3 = unet_bin w2
              /\ frozen w3 = frozen w2).
  { unfold w3. destruct (exists_path _ w2);
      cbn [events emit set_session_file add_path session_file unet_bin
           frozen]; rewrite <- ?app_assoc;
      eexists; repeat split; reflexivity. }
  destruct T as (tl3 & E3 & O3 & S3 & F3 & U3 & Z3). clearbody w3.
  destruct (unet_bin w3) eqn:Bn.
  - set (w4 := if exists_path _ w3 then _ else w3).
    assert (T : exists tl4,
                events w4 = (events w3 ++ tl4)%list
                /\ optimizer_steps tl4 = 0%nat /\ snapshots tl4 = []
                /\ session_file w4 = session_file w3
                /\ frozen w4 = frozen w3).
    { unfold w4. destruct (exists_path _ w3).
      - exists [Remove (final_chkpth args (s0 + m))].
        repeat split; reflexivity.
      - exists []. rewrite app_nil_r. repeat split; reflexivity. }
    destruct T as (tl4 & E4 & O4 & S4 & F4 & Z4). clearbody w4.
    eexists. exists session'.
    exists (tl2 ++ tl3 ++ tl4
            ++ [Convert (diffusers_to_ckpt_script_path args)
                        (output_dir args) (final_chkpth args (s0 + m))])%list.
    split; [reflexivity|].
    cbn [world set_world global_step unet text_encoder events emit
         session_file frozen].
    rewrite E4, E3, E2, F4, F3, Z4, Z3, <- !app_assoc,
            !optimizer_steps_app, !snapshots_app, O2, O3, O4, S2, S3, S4.
    repeat split; try assumption; try reflexivity.
    + intros _. exists (tl2 ++ tl3 ++ tl4)%list.
      now rewrite <- !app_assoc.
    + destruct (R2 H H0 v H1) as [I _]. apply in_or_app. now left.
    + destruct (R2 H H0 v H1) as [_ Z]. exact Z.
  - eexists. exists session'. exists (tl2 ++ tl3)%list.
    split; [reflexivity|].
    cbn [world set_world global_step unet text_encoder].
    rewrite E3, E2, F3, Z3, <- !app_assoc,
            !optimizer_steps_app, !snapshots_app, O2, O3, S2, S3.
    repeat split; try assumption; try reflexivity.
    + intros H. rewrite <- U2, <- U3 in H. discriminate H.
    + destruct (R2 H H0 v H1) as [I _]. apply in_or_app. now left.
    + destruct (R2 H H0 v H1) as [_ Z]. exact Z.
Qed.

(** *** One run of [main] *)


(** ** Session steps across runs *)



(** [str] of an [int] is its decimal numeral, and the numeral tells the
    number. *)
Lemma to_int_normal (n : Z) :
  Z.to_int n <> Decimal.Pos Decimal.Nil
  /\ Z.to_int n <> Decimal.Neg Decimal.Nil.
Proof.
  assert (H : Z.to_int n = Decimal.norm (Z.to_int n)).
  { rewrite <- DecimalZ.to_of, DecimalZ.of_to. reflexivity. }
  split; intros E; rewrite E in H; discriminate H.
Qed.

Lemma str_inj (n k : Z) : PyStr.str n = PyStr.str k -> n = k.
Proof.
  unfold PyStr.str. intros H.
  apply (f_equal NilZero.int_of_string) in H.
  destruct (to_int_normal n) as [N1 N2], (to_int_normal k) as [K1 K2].
  rewrite !NilZero.isi in H by assumption.
  injection H as H. now apply DecimalZ.to_int_inj.
Qed.



(** ** The snapshot of the text encoder *)

Lemma accumulate_every_batch (args : Args) (e : bool) (st : State) :
  gradient_accumulation_steps args = 1%Z ->
  snd (accumulate args e st) = true.
Proof.
  intros H. rewrite sync_at, H, Z.mod_1_r. now destruct e.
Qed.

Lemma freeze_fires_iff (main : bool) (g m T : Z) (stop : bool) :
  stop = (g >=? m)%Z ->
  negb stop && (true && (g =? T)%Z && (g >=? 30)%Z && main) = true
  <-> (g < m /\ g = T /\ 30 <= g)%Z /\ main = true.
Proof.
  intros ->. rewrite !Z.geb_leb, !andb_true_iff, negb_true_iff,
    Z.leb_gt, Z.leb_le, Z.eqb_eq. tauto.
Qed.

(** C4 (what the code does).  In a run that trains the text encoder, the
    snapshots of the text encoder all go to
    [<output_dir>/text_encoder_frozen] and all hold the weights after
    [stop_text_encoder_training] updates; there is at least one exactly on
    the main process when that threshold is at least 30 and below the
    planned number of steps, and without gradient accumulation there is at
    most one.  Nothing is frozen: the optimizer updates the text encoder at
    every step of the run, also after the snapshot.  The final export then
    copies the snapshot over the text encoder it trained, and removes the
    snapshot. *)
Theorem text_encoder_snapshot
    (args a : Args) (env : Env) (w w1 : World) (i0 m ep : Z)
    (session : Json) (s0 : Z) :
  main_prelude args env = Ok (a, i0) ->
  plan_steps a env = Ok (m, ep) ->
  load_session a w = Ok (session, w1) ->
  session_step_of session = Ok (JInt s0) ->
  (1 <= gradient_accumulation_steps a)%Z ->
  (0 <= m <= sys_maxsize)%Z ->
  train_text_encoder a = true ->
  let T := stop_text_encoder_training a in
  let taken := is_main_process env = true /\ (30 <= T < m)%Z in
  exists st k,
    main args env w = Ok st
    /\ snapshots (events (world st))
       = (snapshots (events w) ++ repeat (frz_dir_of a, Z.to_nat T) k)%list
    /\ (taken -> (1 <= k)%nat)
    /\ (~ taken -> k = 0%nat)
    /\ (gradient_accumulation_steps a = 1%Z -> (k <= 1)%nat)
    /\ text_encoder st = Z.to_nat m
    /\ (taken ->
        In (RestoreFrozen (frz_dir_of a) (output_dir a ++ "/text_encoder")
                          (Z.to_nat T))
           (events (world st))
        /\ frozen (world st) = None).
Proof.
  intros Hprel Hplan Hload Hs Hg [Hm Hmax] Htte T taken.
  assert (Hb : is_main_process env = true -> text_encoder_bound a = true).
  { intros _. unfold text_encoder_bound. now rewrite Htte. }
  rewrite (main_unfold args a env w w1 i0 m ep session Hprel Hplan Hmax Hload).
  apply load_session_world in Hload. subst w1.
  destruct (with_training_dir_trace a w) as (_ & W2 & _ & _).
  set (x := (frz_dir_of a, Z.to_nat T)).
  set (reached := fun g : Z =>
         is_main_process env = true /\ (30 <= T)%Z /\ (T <= g)%Z /\ (T < m)%Z).
  set (P := fun st : State =>
    (0 <= global_step st)%Z
    /\ text_encoder st = Z.to_nat (global_step st)
    /\ exists k,
         snapshots (events (world st))
         = (snapshots (events w) ++ repeat x k)%list
         /\ (reached (global_step st) ->
             (1 <= k)%nat /\ frozen (world st) = Some (Z.to_nat T))
         /\ (~ reached (global_step st) -> k = 0%nat)
         /\ (gradient_accumulation_steps a = 1%Z -> (k <= 1)%nat)).
  destruct (training_loop_run a env m ep session s0 P
              (initial_state i0 (with_training_dir a w)) Hg Hm Hplan Hs Hb)
    as (st & E & HP & G).
  - intros e st st' stop (P1 & P2 & k & P3 & P4 & P5 & P6) Hlt Hbody.
    destruct (loop_body_counters _ _ _ _ _ _ _ _ Hbody) as (C1 & _ & C3 & _).
    destruct (loop_body_snapshots _ _ _ _ _ _ _ _ Hbody) as (S1 & Fz).
    destruct (loop_body_inv _ _ _ _ _ _ _ _ Hbody) as (_ & Hstop & _).
    rewrite <- advance_global_step in C1. rewrite <- C1 in Hstop.
    rewrite advance_global_step in C1.
    rewrite Htte in C3, S1, Fz. rewrite andb_true_r in C3.
    assert (D1 : gradient_accumulation_steps a = 1%Z ->
                 global_step st' = (global_step st + 1)%Z).
    { intros H1. now rewrite C1, (accumulate_every_batch a e st H1). }
    assert (T' : text_encoder st' = Z.to_nat (global_step st')).
    { rewrite C3, C1, P2. destruct (snd (accumulate a e st)); lia. }
    assert (Hd : (global_step st <= global_step st' <= global_step st + 1)%Z).
    { rewrite C1. destruct (snd (accumulate a e st)); lia. }
    fold T in S1, Fz. clear C1 C3.
    pose proof (freeze_fires_iff (is_main_process env) (global_step st')
                  m T stop Hstop) as Fi.
    unfold P. split; [lia|]. split; [exact T'|].
    unfold reached in *.
    destruct (negb stop && _) eqn:F.
    + destruct (proj1 Fi eq_refl) as ((F1 & F2 & F3) & F4).
      exists (S k). rewrite S1, P3, Fz, T', F2, <- app_assoc.
      fold x. rewrite <- repeat_cons. cbn [repeat].
      split; [reflexivity|]. split; [|split].
      * intros _. split; [lia | reflexivity].
      * intros NR. exfalso. apply NR. repeat split; try assumption; lia.
      * intros H1. specialize (D1 H1).
        assert (k = 0%nat) by (apply P5; intros (_ & _ & ? & _); lia).
        lia.
    + assert (NF : ~ ((global_step st' < m /\ global_step st' = T
                       /\ 30 <= global_step st')%Z
                      /\ is_main_process env = true)).
      { intros H. apply Fi in H. discriminate H. }
      exists k. rewrite S1, P3, Fz, app_nil_r.
      split; [reflexivity|]. split; [|split; [|exact P6]].
      * intros (R1 & R2 & R3 & R4). apply P4.
        repeat split; try assumption.
        destruct (Z_le_gt_dec T (global_step st)); [assumption|].
        exfalso. apply NF. repeat split; try assumption; lia.
      * intros NR. apply P5. intros (R1 & R2 & R3 & R4). apply NR.
        repeat split; try assumption; lia.
  - unfold P, initial_state, reached. cbn -[snapshots]. rewrite W2.
    split; [lia|]. split; [reflexivity|].
    exists 0%nat. cbn [repeat]. rewrite app_nil_r.
    repeat split; lia.
  - reflexivity.
  - reflexivity.
  - rewrite E. cbn [bind].
    destruct HP as (P1 & P2 & k & P3 & P4 & P5 & P6).
    destruct (finish_run a env m session s0 st Hs Hb)
      as (st' & session' & tl & F0 & _ & _ & F3 & F4 & _ & F6 & _ & _ & _
          & _ & F11).
    exists st', k.
    rewrite F0, F3, F4, snapshots_app, F6, app_nil_r, P2, P3, G.
    unfold reached in *. rewrite G in P4, P5.
    split; [reflexivity|]. split; [reflexivity|].
    unfold taken. repeat split; try assumption; try reflexivity.
    + intros (R1 & R2 & R3). apply P4. repeat split; try assumption; lia.
    + intros NR. apply P5. intros (R1 & R2 & R3 & R4). apply NR.
      repeat split; assumption.
    + destruct H as (R1 & R2 & R3).
      destruct P4 as (_ & Fz); [repeat split; try assumption; lia|].
      destruct (F11 R1 Htte _ Fz) as (I & _).
      apply in_or_app. now right.
    + destruct H as (R1 & R2 & R3).
      destruct P4 as (_ & Fz); [repeat split; try assumption; lia|].
      destruct (F11 R1 Htte _ Fz) as (_ & Z). exact Z.
Qed.

(** C4 on a run of 32 steps with the threshold at 30. *)
Lemma text_encoder_snapshot_witness :
  let args := mkArgs false 0 "convert.py" false 1 "out" None true 1
                     (Some 32%Z) 1 1 1 30 false "sessions" false in
  let env := mkEnv true 1 4 in
  let w := mkWorld [] None None false [] in
  exists st,
    main args env w = Ok st
    /\ snapshots (events (world st)) = [("out/text_encoder_frozen", 30%nat)]
    /\ text_encoder st = 32%nat
    /\ In (RestoreFrozen "out/text_encoder_frozen" "out/text_encoder" 30)
          (events (world st)).
Proof.
  intros args env w.
  destruct (text_encoder_snapshot args (set_seed (Some 1337%Z) args) env w
              (with_training_dir args w) 1 32 8 fresh_session 0)
    as (st & k & R & S & K1 & _ & K2 & T & Rs);
    try reflexivity; try (cbn; lia); try (vm_compute; split; discriminate).
  assert (Tk : is_main_process env = true /\ (30 <= 30 < 32)%Z)
    by (split; [reflexivity | lia]).
  specialize (K1 Tk). specialize (K2 eq_refl).
  assert (k = 1%nat) by lia. subst k.
  exists st. repeat split; try assumption. apply (Rs Tk).
Defined.

(** C4 at a concrete input.  In a run of 32 steps with the threshold at 30
    the snapshot holds the weights after 30 updates, yet two more optimizer
    updates move the text encoder after it; and with two micro-batches per
    optimizer step the snapshot is taken twice. *)
Lemma text_encoder_keeps_training :
  let args := mkArgs false 0 "convert.py" false 1 "out" None true 1
                     (Some 32%Z) 1 1 1 30 false "sessions" false in
  let args2 := mkArgs false 0 "convert.py" false 1 "out" None true 1
                      (Some 32%Z) 2 1 1 30 false "sessions" false in
  let env := mkEnv true 1 4 in
  let w := mkWorld [] None None false [] in
  (exists st,
     main args env w = Ok st
     /\ snapshots (events (world st)) = [("out/text_encoder_frozen", 30%nat)]
     /\ text_encoder_updates (after_snapshot (events (world st))) = 2%nat
     /\ text_encoder st = 32%nat)
  /\ (exists st,
        main args2 env w = Ok st
        /\ snapshots (events (world st))
           = [("out/text_encoder_frozen", 30%nat);
              ("out/text_encoder_frozen", 30%nat)]).
Proof.
  split; eexists; (split; [vm_compute; reflexivity|]);
    repeat split; vm_compute; reflexivity.
Qed.

(** ** The periodic export *)

(** C5 (where the code departs from it).  On a process that is not the
    main one the periodic export is not without effect: when it fires and
    its working directory is not there yet, the directory is made, and
    nothing else happens: no pipeline is saved, nothing removes the
    directory, and the target step stays where it was. *)
Theorem periodic_export_off_main_process
    (args : Args) (env : Env) (m : Z) (session : Json) (s0 : Z) (st : State) :
  is_main_process env = false ->
  (200 <= save_n_steps args)%Z ->
  (global_step st + 1 < m)%Z ->
  (global_step st + 1 = i st)%Z ->
  session_step_of session = Ok (JInt s0) ->
  let save_dir :=
    PyStr.replace " " "_"
      (PyPath.Path_str
         (output_dir args ++ "_" ++ PyStr.str (s0 + global_step st + 1))) in
  exists_path save_dir (world st) = false ->
  periodic_export args env m session st
  = Ok (set_world (emit (Mkdir save_dir) (add_path save_dir (world st))) st).
Proof.
  intros Hmain Hn Hlt Hi Hs save_dir Hex.
  unfold periodic_export.
  replace (save_n_steps args >=? 200)%Z with true
    by (symmetry; rewrite Z.geb_leb; apply Z.leb_le; exact Hn).
  replace (global_step st + 1 <? m)%Z with true
    by (symmetry; apply Z.ltb_lt; exact Hlt).
  replace (global_step st + 1 =? i st)%Z with true
    by (symmetry; apply Z.eqb_eq; exact Hi).
  cbn [andb]. rewrite Hs. cbn [bind add_int].
  fold save_dir. rewrite Hex, Hmain. reflexivity.
Qed.

(** C5 on step 199 of a run that exports every 200 steps. *)
Lemma periodic_export_off_main_process_witness :
  let args := mkArgs false 0 "convert.py" false 1 "out" None false 1
                     (Some 1000%Z) 1 200 200 1000000 false "sessions" false in
  let env := mkEnv false 2 4 in
  let st := mkState 199 200 0 199 0 (mkWorld [] None None false []) in
  periodic_export args env 1000 fresh_session st
  = Ok (mkState 199 200 0 199 0
          (mkWorld ["out_200"] None None false [Mkdir "out_200"])).
Proof.
  intros args env st.
  exact (periodic_export_off_main_process args env 1000 fresh_session 0 st
           eq_refl ltac:(cbn; lia) ltac:(cbn; lia) eq_refl eq_refl eq_refl).
Defined.

(** * Further properties of the code *)

(** ** The start of [main] *)

Lemma prelude_args_fields (args : Args) :
  let a := text_encoder_switch (subfolder_overrides (default_seed args)) in
  train_text_encoder a
  = train_text_encoder args && negb (stop_text_encoder_training args <=? 1)%Z
  /\ gradient_accumulation_steps a = gradient_accumulation_steps args
  /\ stop_text_encoder_training a = stop_text_encoder_training args
  /\ max_train_steps a = max_train_steps args
  /\ num_train_epochs a = num_train_epochs args
  /\ seed a = seed (default_seed args).
Proof.
  unfold text_encoder_switch, subfolder_overrides, default_seed.
  destruct (seed args) as [s|]; try destruct (s =? 0)%Z;
    destruct (subfolder_mode args) eqn:S; cbn; rewrite ?S; cbn;
    destruct (stop_text_encoder_training args <=? 1)%Z; cbn;
    rewrite ?andb_false_r, ?andb_true_r; repeat split.
Qed.

(** [main] refuses to start exactly when the text encoder is to be trained
    (the flag is given and the threshold is above 1), gradients are
    accumulated and there is more than one process.  A threshold of 1 or
    less turns the training of the text encoder off, and with it the
    refusal. *)
Theorem main_prelude_raises_iff (args : Args) (env : Env) :
  raises (main_prelude args env)
  <-> (train_text_encoder args = true
       /\ (1 < stop_text_encoder_training args)%Z
       /\ (1 < gradient_accumulation_steps args)%Z
       /\ (1 < num_processes env)%Z).
Proof.
  unfold main_prelude, raises.
  destruct (prelude_args_fields args) as (T & G & _). cbv zeta in T, G.
  rewrite T, G, <- Z.ltb_antisym.
  rewrite <- (Z.ltb_lt 1 (stop_text_encoder_training args)),
          <- (Z.ltb_lt 1 (gradient_accumulation_steps args)),
          <- (Z.ltb_lt 1 (num_processes env)).
  destruct (train_text_encoder args);
    destruct (1 <? stop_text_encoder_training args)%Z;
    destruct (1 <? gradient_accumulation_steps args)%Z;
    destruct (1 <? num_processes env)%Z; cbn [andb];
    (split;
     [ intros [e H]; try discriminate H; repeat split
     | intros (H1 & H2 & H3 & H4); try discriminate;
       eexists; reflexivity ]).
Qed.

(** The seed the run goes on with is never missing and never 0: it is the
    one given, or 1337 when none or 0 was given; and the first periodic
    export is planned for [save_starting_step]. *)
Theorem main_prelude_seed (args a : Args) (env : Env) (i0 : Z) :
  main_prelude args env = Ok (a, i0) ->
  i0 = save_starting_step args
  /\ exists s,
       seed a = Some s /\ s <> 0%Z
       /\ (seed args = Some s
           \/ (s = 1337%Z /\ (seed args = None \/ seed args = Some 0%Z))).
Proof.
  unfold main_prelude. destruct (_ && _ && _); [discriminate|].
  intros E. injection E as <- <-. split; [reflexivity|].
  destruct (prelude_args_fields args) as (_ & _ & _ & _ & _ & S).
  cbv zeta in S. rewrite S. unfold default_seed.
  destruct (seed args) as [s|] eqn:Hs.
  - destruct (Z.eqb_spec s 0).
    + subst s. exists 1337%Z. cbn. repeat split; [lia | auto].
    + exists s. rewrite Hs. repeat split; [assumption | auto].
  - exists 1337%Z. cbn. repeat split; [lia | auto].
Qed.

Lemma main_prelude_seed_witness :
  let args := mkArgs false 0 "convert.py" false 1 "out" (Some 0%Z) false 1
                     (Some 3%Z) 1 1 7 1000000 false "sessions" false in
  exists a, main_prelude args (mkEnv true 1 2) = Ok (a, 7%Z)
            /\ seed a = Some 1337%Z.
Proof.
  intros args. eexists. split; [reflexivity|].
  destruct (main_prelude_seed args _ (mkEnv true 1 2) 7 eq_refl)
    as (_ & s & H & _).
  exact eq_refl.
Defined.

(** ** The plan of the run *)

Lemma ceil_div_mul (e n : Z) : (1 <= n)%Z -> ceil_div (e * n) n = e.
Proof.
  intros H. unfold ceil_div.
  rewrite <- Z.mul_opp_l, Z.div_mul by lia. lia.
Qed.

Lemma update_steps_positive (gas : Z) (L : nat) :
  (1 <= gas)%Z -> L <> 0%nat -> (1 <= ceil_div (Z.of_nat L) gas)%Z.
Proof.
  intros Hg HL. rewrite <- syncs_per_epoch by exact Hg.
  destruct L as [|r]; [congruence|].
  rewrite syncs_closed by exact Hg. rewrite Z.div_0_l by lia.
  assert (0 <= (0 + Z.of_nat r) / gas)%Z by (apply Z.div_pos; lia).
  lia.
Qed.

(** With a positive accumulation count the plan fails exactly on an empty
    data loader (the division by the number of update steps per epoch). *)
Theorem plan_steps_empty_dataloader (args : Args) (env : Env) :
  (1 <= gradient_accumulation_steps args)%Z ->
  (plan_steps args env = Raise ZeroDivisionError
   <-> dataloader_len env = 0%nat).
Proof.
  intros Hg. unfold plan_steps.
  replace (gradient_accumulation_steps args =? 0)%Z with false
    by (symmetry; apply Z.eqb_neq; lia).
  set (n := ceil_div _ _).
  destruct (Z.eqb_spec n 0) as [N|N]; split; intros H;
    try reflexivity; try discriminate H.
  - destruct (Nat.eq_dec (dataloader_len env) 0) as [E|E]; [exact E|].
    pose proof (update_steps_positive _ _ Hg E). fold n in H0. lia.
  - exfalso. apply N. unfold n. rewrite H. reflexivity.
Qed.

Lemma plan_steps_empty_dataloader_witness :
  plan_steps (mkArgs false 0 "convert.py" false 1 "out" None false 1
                     (Some 3%Z) 2 1 1 1000000 false "sessions" false)
             (mkEnv true 1 0)
  = Raise ZeroDivisionError.
Proof.
  apply (plan_steps_empty_dataloader _ (mkEnv true 1 0)); [cbn; lia|].
  reflexivity.
Defined.

(** The plan is tight: an epoch has just enough update steps for its
    micro-batches, and the planned epochs are the least number of epochs
    that hold the planned steps. *)
Theorem plan_steps_epochs_least (args : Args) (env : Env) (m ep : Z) :
  plan_steps args env = Ok (m, ep) ->
  (1 <= gradient_accumulation_steps args)%Z ->
  let gas := gradient_accumulation_steps args in
  let n := ceil_div (Z.of_nat (dataloader_len env)) gas in
  ((n - 1) * gas < Z.of_nat (dataloader_len env) <= n * gas)%Z
  /\ ((ep - 1) * n < m <= ep * n)%Z.
Proof.
  intros Hplan Hg gas n.
  destruct (plan_steps_inv args env m ep Hplan Hg) as (_ & Hn & -> & _).
  fold gas n in Hn |- *.
  split; [apply ceil_div_bounds; exact Hg | apply ceil_div_bounds; exact Hn].
Qed.

Lemma plan_steps_epochs_least_witness :
  let args := mkArgs false 0 "convert.py" false 1 "out" None false 1
                     (Some 10%Z) 2 1 1 1000000 false "sessions" false in
  plan_steps args (mkEnv true 1 7) = Ok (10, 3)%Z
  /\ ((3 - 1) * 4 < 10 <= 3 * 4)%Z.
Proof.
  intros args. split; [reflexivity|].
  exact (proj2 (plan_steps_epochs_least args (mkEnv true 1 7) 10 3 eq_refl
                  ltac:(cbn; lia))).
Defined.

(** Without [--max_train_steps] the steps are the epochs asked for times
    the update steps of an epoch, and the number of epochs computed back
    from them is the number asked for. *)
Theorem plan_steps_default_keeps_epochs (args : Args) (env : Env) :
  max_train_steps args = None ->
  (1 <= gradient_accumulation_steps args)%Z ->
  dataloader_len env <> 0%nat ->
  plan_steps args env
  = Ok ((num_train_epochs args
         * ceil_div (Z.of_nat (dataloader_len env))
                    (gradient_accumulation_steps args))%Z,
        num_train_epochs args).
Proof.
  intros Hmax Hg HL.
  pose proof (update_steps_positive _ _ Hg HL) as Hn.
  unfold plan_steps.
  replace (gradient_accumulation_steps args =? 0)%Z with false
    by (symmetry; apply Z.eqb_neq; lia).
  replace (ceil_div _ _ =? 0)%Z with false
    by (symmetry; apply Z.eqb_neq; lia).
  rewrite Hmax. now rewrite ceil_div_mul by exact Hn.
Qed.

Lemma plan_steps_default_keeps_epochs_witness :
  plan_steps (mkArgs false 0 "convert.py" false 1 "out" None false 5
                     None 2 1 1 1000000 false "sessions" false)
             (mkEnv true 1 7)
  = Ok (20, 5)%Z.
Proof.
  exact (plan_steps_default_keeps_epochs
           (mkArgs false 0 "convert.py" false 1 "out" None false 5
                   None 2 1 1 1000000 false "sessions" false)
           (mkEnv true 1 7) eq_refl ltac:(cbn; lia) ltac:(discriminate)).
Defined.

(** ** The periodic export on the main process *)




(** ** Runs that do not get to their end *)

Lemma periodic_export_result
    (args : Args) (env : Env) (m : Z) (session : Json) (s0 : Z) (st : State) :
  session_step_of session = Ok (JInt s0) ->
  (exists st', periodic_export args env m session st = Ok st')
  \/ periodic_export args env m session st = Raise UnboundLocalError.
Proof.
  intros H. unfold periodic_export. rewrite H. cbn [bind add_int].
  destruct (save_n_steps args >=? 200)%Z; [|left; eexists; reflexivity].
  destruct (_ && _); [|left; eexists; reflexivity].
  destruct (is_main_process env); [|left; eexists; reflexivity].
  destruct (text_encoder_bound args); cbn [negb];
    [left; eexists; reflexivity | right; reflexivity].
Qed.

Lemma loop_body_result
    (args : Args) (env : Env) (m : Z) (session : Json) (s0 : Z) (e : bool)
    (st : State) :
  m <> 0%Z ->
  session_step_of session = Ok (JInt s0) ->
  (exists r, loop_body args env m session e st = Ok r)
  \/ loop_body args env m session e st = Raise UnboundLocalError.
Proof.
  intros M Hs. rewrite loop_body_unfold.
  apply Z.eqb_neq in M. rewrite M.
  destruct (_ >=? m)%Z; [left; eexists; reflexivity|].
  destruct (periodic_export_result args env m session s0
              (freeze_text_encoder args env (advance args e st)) Hs)
    as [[st' ->] | ->]; [left; eexists; reflexivity | right; reflexivity].
Qed.

Lemma batches_loop_result
    (body : bool -> State -> result (State * bool)) (x : Exception) :
  (forall e st, (exists r, body e st = Ok r) \/ body e st = Raise x) ->
  forall r st,
    (exists st', batches_loop body r st = Ok st')
    \/ batches_loop body r st = Raise x.
Proof.
  intros Hb. induction r as [|r IH]; intros st; cbn [batches_loop].
  - left. eexists; reflexivity.
  - destruct (Hb (r =? 0)%nat st) as [[[st1 stop] ->] | ->]; cbn [bind].
    + destruct stop; [left; eexists; reflexivity | apply IH].
    + right. reflexivity.
Qed.

Lemma epochs_loop_result
    (body : bool -> State -> result (State * bool)) (x : Exception)
    (batches : nat) :
  (forall e st, (exists r, body e st = Ok r) \/ body e st = Raise x) ->
  forall epochs st,
    (exists st', epochs_loop body batches epochs st = Ok st')
    \/ epochs_loop body batches epochs st = Raise x.
Proof.
  intros Hb. induction epochs as [|n IH]; intros st; cbn [epochs_loop].
  - left. eexists; reflexivity.
  - destruct (batches_loop_result body x Hb batches st) as [[st1 ->] | ->];
      cbn [bind]; [apply IH | right; reflexivity].
Qed.

(** With the latents cached and the text encoder not trained, which is
    what the script does when it is given neither [--not_cache_latents]
    nor [--train_text_encoder], the main process never gets to the end of
    [main]: the text encoder was deleted after the caching, and the first
    pipeline the process builds, in a periodic export or else in the final
    one, raises [UnboundLocalError].  The session is not written and no
    final checkpoint is made. *)
Theorem main_aborts_without_text_encoder
    (args a : Args) (env : Env) (w w1 : World) (i0 m ep : Z)
    (session : Json) (s0 : Z) :
  main_prelude args env = Ok (a, i0) ->
  plan_steps a env = Ok (m, ep) ->
  load_session a w = Ok (session, w1) ->
  session_step_of session = Ok (JInt s0) ->
  (1 <= gradient_accumulation_steps a)%Z ->
  (0 <= m <= sys_maxsize)%Z ->
  is_main_process env = true ->
  text_encoder_bound a = false ->
  main args env w = Raise UnboundLocalError.
Proof.
  intros Hprel Hplan Hload Hs Hg [Hm Hmax] Hmain Hb.
  rewrite (main_unfold args a env w w1 i0 m ep session Hprel Hplan Hmax Hload).
  assert (F : forall st, finish a env m session st = Raise UnboundLocalError).
  { intros st. unfold finish, final_export. now rewrite Hmain, Hb. }
  destruct (Z.eq_dec m 0) as [->|M].
  - destruct (plan_steps_inv a env 0 ep Hplan Hg) as (_ & Hn & -> & _).
    replace (ceil_div 0 _) with 0%Z
      by (symmetry; apply (ceil_div_mul 0); exact Hn).
    cbn [Z.to_nat epochs_loop bind]. apply F.
  - destruct (epochs_loop_result (loop_body a env m session)
                UnboundLocalError (dataloader_len env)
                (fun e st => loop_body_result a env m session s0 e st M Hs)
                (Z.to_nat ep) (initial_state i0 w1)) as [[st ->] | ->];
      cbn [bind]; [apply F | reflexivity].
Qed.

Lemma main_aborts_without_text_encoder_witness :
  main (mkArgs false 0 "convert.py" false 1 "out" None false 1
               (Some 3%Z) 1 1 1 1000000 false "sessions" false)
       (mkEnv true 1 2) (mkWorld [] None None false [])
  = Raise UnboundLocalError.
Proof.
  apply (main_aborts_without_text_encoder _
           (set_seed (Some 1337%Z)
              (mkArgs false 0 "convert.py" false 1 "out" None false 1
                      (Some 3%Z) 1 1 1 1000000 false "sessions" false))
           (mkEnv true 1 2) (mkWorld [] None None false [])
           (with_training_dir
              (mkArgs false 0 "convert.py" false 1 "out" None false 1
                      (Some 3%Z) 1 1 1 1000000 false "sessions" false)
              (mkWorld [] None None false []))
           1 3 2 fresh_session 0);
    try reflexivity; try (cbn; lia); try (vm_compute; split; discriminate).
Defined.

(** A number of steps that does not fit the progress bar stops [main]
    before it looks at the session. *)
Theorem main_progress_bar_overflow
    (args a : Args) (env : Env) (w : World) (i0 m ep : Z) :
  main_prelude args env = Ok (a, i0) ->
  plan_steps a env = Ok (m, ep) ->
  (sys_maxsize < m)%Z ->
  main args env w = Raise OverflowError.
Proof.
  intros H1 H2 Hm. unfold main. rewrite H1. cbn [bind].
  rewrite H2. cbn [bind]. unfold progress_bar_total.
  replace (sys_maxsize <? m)%Z with true
    by (symmetry; apply Z.ltb_lt; exact Hm).
  reflexivity.
Qed.

Lemma main_progress_bar_overflow_witness :
  main (mkArgs false 0 "convert.py" false 1 "out" None false 1
               (Some (2 ^ 63)%Z) 1 1 1 1000000 false "sessions" true)
       (mkEnv true 1 2) (mkWorld [] None None false [])
  = Raise OverflowError.
Proof.
  apply (main_progress_bar_overflow _
           (set_seed (Some 1337%Z)
              (mkArgs false 0 "convert.py" false 1 "out" None false 1
                      (Some (2 ^ 63)%Z) 1 1 1 1000000 false "sessions" true))
           (mkEnv true 1 2) _ 1 (2 ^ 63) (2 ^ 62));
    [reflexivity | reflexivity | vm_compute; reflexivity].
Defined.

(** A session whose [session_step] cannot be added to (the key is missing,
    or the value is no number) is loaded without complaint; the run trains
    to the end, or to the first periodic export, and then raises the error
    of that addition: the session file is not rewritten and no final
    checkpoint is made. *)
Theorem main_bad_session_raises
    (args a : Args) (env : Env) (w w1 : World) (i0 m ep : Z)
    (session : Json) (x : Exception) :
  main_prelude args env = Ok (a, i0) ->
  plan_steps a env = Ok (m, ep) ->
  load_session a w = Ok (session, w1) ->
  (forall n, (v <- session_step_of session ;; add_int v n) = Raise x) ->
  (1 <= gradient_accumulation_steps a)%Z ->
  (0 <= m <= sys_maxsize)%Z ->
  (is_main_process env = true -> text_encoder_bound a = true) ->
  main args env w = Raise x.
Proof.
  intros Hprel Hplan Hload Hx Hg [Hm Hmax] Hb.
  rewrite (main_unfold args a env w w1 i0 m ep session Hprel Hplan Hmax Hload).
  assert (F : forall st, finish a env m session st = Raise x).
  { intros st. unfold finish.
    destruct (final_export_run a env st Hb) as (w2 & tl & -> & _).
    cbn [bind]. unfold save_session, session_add.
    specialize (Hx m).
    destruct (session_step_of session) as [v|y]; cbn [bind] in *.
    - rewrite Hx. reflexivity.
    - injection Hx as ->. reflexivity. }
  destruct (Z.eq_dec m 0) as [->|M].
  { destruct (plan_steps_inv a env 0 ep Hplan Hg) as (_ & Hn & -> & _).
    replace (ceil_div 0 _) with 0%Z
      by (symmetry; apply (ceil_div_mul 0); exact Hn).
    cbn [Z.to_nat epochs_loop bind]. apply F. }
  assert (B : forall e st,
            (exists r, loop_body a env m session e st = Ok r)
            \/ loop_body a env m session e st = Raise x).
  { intros e st. rewrite loop_body_unfold.
    apply Z.eqb_neq in M. rewrite M.
    destruct (_ >=? m)%Z; [left; eexists; reflexivity|].
    unfold periodic_export.
    destruct (save_n_steps a >=? 200)%Z; [|left; eexists; reflexivity].
    destruct (_ && _); [|left; eexists; reflexivity].
    right. specialize (Hx (global_step
                             (freeze_text_encoder a env (advance a e st)))).
    destruct (session_step_of session) as [v|y]; cbn [bind] in *.
    + rewrite Hx. reflexivity.
    + injection Hx as ->. reflexivity. }
  destruct (epochs_loop_result (loop_body a env m session) x
              (dataloader_len env) B (Z.to_nat ep) (initial_state i0 w1))
    as [[st ->] | ->]; cbn [bind]; [apply F | reflexivity].
Qed.

Lemma main_bad_session_raises_witness :
  let args := mkArgs false 0 "convert.py" false 1 "out" None false 1
                     (Some 3%Z) 1 1 1 1000000 false "sessions" true in
  let f := mkSessionFile "{}" (Some (JObj [])) in
  main args (mkEnv true 1 2) (mkWorld [] (Some f) None false [])
  = Raise (KeyError "session_step").
Proof.
  intros args f.
  apply (main_bad_session_raises args (set_seed (Some 1337%Z) args)
           (mkEnv true 1 2) (mkWorld [] (Some f) None false [])
           (with_training_dir args (mkWorld [] (Some f) None false []))
           1 3 2 (JObj []));
    try reflexivity; try (cbn; lia); try (vm_compute; split; discriminate).
Defined.

(** ** The session dictionary *)

Lemma dict_set_other {A : Type} (key k : string) (v : A)
    (d : list (string * A)) :
  k <> key -> lookup k (dict_set key v d) = lookup k d.
Proof.
  intros N. apply String.eqb_neq in N.
  induction d as [|[k' w] r IH]; cbn [dict_set lookup].
  - now rewrite N.
  - destruct (String.eqb key k') eqn:E; cbn [lookup].
    + apply String.eqb_eq in E. subst k'. now rewrite N.
    + now rewrite IH.
Qed.

Lemma dict_set_keys {A : Type} (key : string) (v v0 : A)
    (d : list (string * A)) :
  lookup key d = Some v0 -> map fst (dict_set key v d) = map fst d.
Proof.
  induction d as [|[k' w] r IH]; cbn [dict_set lookup map fst];
    [discriminate|].
  destruct (String.eqb key k') eqn:E; cbn [map fst]; [reflexivity|].
  intros H. now rewrite IH.
Qed.

(** [session["session_step"] += n] touches that one entry: every other
    key of the session keeps its value, and the keys keep their order (so
    the file is written with the members in the order it was read). *)
Theorem session_add_keeps_other_keys
    (session session' : Json) (n : Z) :
  session_add session n = Ok session' ->
  exists d d' v z,
    session = JObj d /\ session' = JObj d'
    /\ lookup "session_step" d = Some v
    /\ add_int v n = Ok z
    /\ lookup "session_step" d' = Some (JInt z)
    /\ (forall k, k <> "session_step" -> lookup k d' = lookup k d)
    /\ map fst d' = map fst d.
Proof.
  unfold session_add. intros H.
  destruct session as [| | | | |d]; try discriminate H.
  cbn [session_step_of] in H.
  destruct (lookup "session_step" d) as [v|] eqn:L; [|discriminate H].
  cbn [bind] in H. destruct (add_int v n) as [z|] eqn:A; [|discriminate H].
  cbn [bind] in H. injection H as <-.
  exists d, (dict_set "session_step" (JInt z) d), v, z.
  repeat split; try reflexivity; try assumption.
  - apply lookup_dict_set.
  - intros k N. now apply dict_set_other.
  - now apply (dict_set_keys _ _ v).
Qed.

Lemma session_add_keeps_other_keys_witness :
  session_add (JObj [("name", JStr "sks"); ("session_step", JInt 5)]) 7
  = Ok (JObj [("name", JStr "sks"); ("session_step", JInt 12)]).
Proof.
  destruct (session_add_keeps_other_keys
              (JObj [("name", JStr "sks"); ("session_step", JInt 5)])
              (JObj [("name", JStr "sks"); ("session_step", JInt 12)]) 7
              eq_refl) as (d & d' & v & z & _).
  reflexivity.
Defined.

(** ** A batch of one example under prior preservation *)


(** ** The name of a checkpoint *)

Lemma mem_app_slash (s : string) : PyStr.mem PyPath.slash (s ++ "/") = true.
Proof.
  induction s as [|c r IH]; cbn [append PyStr.mem]; [reflexivity|].
  rewrite IH. apply orb_true_r.
Qed.

Lemma basename_app_slash (s : string) : PyPath.basename (s ++ "/") = "".
Proof.
  induction s as [|c r IH]; [reflexivity|].
  cbn [append PyPath.basename]. now rewrite mem_app_slash.
Qed.

Lemma substring_all (s : string) : substring 0 (String.length s) s = s.
Proof. induction s as [|c r IH]; cbn; [reflexivity | now rewrite IH]. Qed.

Lemma all_slashes_app (s t : string) :
  PyPath.all_slashes (s ++ t) = PyPath.all_slashes s && PyPath.all_slashes t.
Proof.
  induction s as [|c r IH]; cbn [append PyPath.all_slashes]; [reflexivity|].
  rewrite IH. apply andb_assoc.
Qed.

Lemma rstrip_app_slash (s : string) :
  PyPath.rstrip_slash (s ++ "/") = PyPath.rstrip_slash s.
Proof.
  induction s as [|c r IH]; [reflexivity|].
  cbn [append PyPath.rstrip_slash]. now rewrite IH.
Qed.

Lemma rstrip_no_slash (s : string) (c : ascii) :
  c <> PyPath.slash ->
  PyPath.rstrip_slash (s ++ String c "") = s ++ String c "".
Proof.
  intros N. apply Ascii.eqb_neq in N.
  induction s as [|d r IH]; cbn [append PyPath.rstrip_slash].
  - now rewrite N.
  - rewrite IH. destruct r; reflexivity.
Qed.

Lemma dirname_app_slash (s : string) :
  PyPath.all_slashes s = false ->
  PyPath.dirname (s ++ "/") = PyPath.rstrip_slash s.
Proof.
  intros H. unfold PyPath.dirname.
  rewrite basename_app_slash. cbn [String.length].
  rewrite Nat.sub_0_r, substring_all, all_slashes_app, H.
  assert (E : String.eqb (s ++ "/") "" = false) by (destruct s; reflexivity).
  rewrite E. cbn [andb negb]. apply rstrip_app_slash.
Qed.

(** The name [main] gives its checkpoints,
    [basename(dirname(output_dir + '/'))], is the last component of
    [output_dir] whether or not [output_dir] is written with a slash at
    its end. *)
Theorem checkpoint_name_trailing_slash (s0 : string) (c : ascii) :
  c <> "/"%char ->
  let s := s0 ++ String c "" in
  PyPath.dirname (s ++ "/") = s
  /\ PyPath.dirname ((s ++ "/") ++ "/") = s
  /\ PyPath.basename (PyPath.dirname ((s ++ "/") ++ "/"))
     = PyPath.basename (PyPath.dirname (s ++ "/")).
Proof.
  intros N s.
  assert (A : PyPath.all_slashes s = false).
  { unfold s. rewrite all_slashes_app. cbn [PyPath.all_slashes].
    apply Ascii.eqb_neq in N. unfold PyPath.slash. rewrite N.
    apply andb_false_r. }
  assert (A' : PyPath.all_slashes (s ++ "/") = false).
  { rewrite all_slashes_app, A. reflexivity. }
  assert (D1 : PyPath.dirname (s ++ "/") = s).
  { rewrite dirname_app_slash by exact A. apply rstrip_no_slash, N. }
  assert (D2 : PyPath.dirname ((s ++ "/") ++ "/") = s).
  { rewrite dirname_app_slash by exact A'.
    rewrite rstrip_app_slash. apply rstrip_no_slash, N. }
  repeat split; [exact D1 | exact D2 | now rewrite D1, D2].
Qed.

Lemma checkpoint_name_trailing_slash_witness :
  PyPath.basename (PyPath.dirname "models/my run//")
  = PyPath.basename (PyPath.dirname "models/my run/").
Proof.
  exact (proj2 (proj2 (checkpoint_name_trailing_slash "models/my ru" "n"
                         ltac:(discriminate)))).
Defined.

(** ** The flat data set *)

Lemma cyclic_ok (l : list string) (index : nat) :
  l <> [] ->
  exists x,
    DreamBoothDataset.cyclic l (List.length l) index = Ok x
    /\ nth_error l (index mod List.length l) = Some x.
Proof.
  intros N. unfold DreamBoothDataset.cyclic.
  assert (H : List.length l <> 0%nat) by (destruct l; [congruence | discriminate]).
  apply Nat.eqb_neq in H. rewrite H. apply Nat.eqb_neq in H.
  destruct (nth_error l (index mod List.length l)) as [x|] eqn:E.
  - exists x. split; reflexivity.
  - exfalso. apply nth_error_None in E.
    pose proof (Nat.mod_upper_bound index (List.length l) H). lia.
Qed.

(** With instance images and class images both there, the data set is as
    long as the longer of the two lists; every index gives an example, made
    of the entries at [index mod n] and [index mod k] of the two lists; so
    over the indices below its length the data set shows every instance
    image and every class image, and goes round the shorter list again. *)
Theorem DreamBoothDataset_pairs
    (instance_data_root class_root prompt : string) (captions : bool)
    (entries listing : list (string * Node)) (class_prompt : option string) :
  entries <> [] -> listing <> [] ->
  let instances := map (fun x => join instance_data_root (fst x)) entries in
  let classes := map (fun x => join class_root (fst x)) listing in
  exists d,
    DreamBoothDataset.init instance_data_root (Some (Dir entries)) prompt
      captions (Some (class_root, Some (Dir listing))) class_prompt = Ok d
    /\ DreamBoothDataset.length d
       = Nat.max (List.length listing) (List.length entries)
    /\ (forall index, exists ex c,
          DreamBoothDataset.getitem d index = Ok ex
          /\ nth_error instances (index mod List.length entries)
             = Some (DreamBoothDataset.instance_image ex)
          /\ DreamBoothDataset.class_example ex = Some (c, class_prompt)
          /\ nth_error classes (index mod List.length listing) = Some c)
    /\ (forall j x, nth_error instances j = Some x ->
          (j < DreamBoothDataset.length d)%nat
          /\ exists ex, DreamBoothDataset.getitem d j = Ok ex
                        /\ DreamBoothDataset.instance_image ex = x)
    /\ (forall j c, nth_error classes j = Some c ->
          (j < DreamBoothDataset.length d)%nat
          /\ exists ex, DreamBoothDataset.getitem d j = Ok ex
                        /\ DreamBoothDataset.class_example ex
                           = Some (c, class_prompt)).
Proof.
  intros Ne Nl instances classes.
  assert (Li : List.length instances = List.length entries)
    by apply length_map.
  assert (Lc : List.length classes = List.length listing)
    by apply length_map.
  assert (Ni : instances <> []).
  { intros H. apply Ne. destruct entries; [reflexivity | discriminate H]. }
  assert (Nc : classes <> []).
  { intros H. apply Nl. destruct listing; [reflexivity | discriminate H]. }
  assert (G : forall index, exists ex c,
            DreamBoothDataset.getitem
              (DreamBoothDataset.mk instances (List.length instances) prompt
                 captions (Some classes) (List.length classes) class_prompt
                 (Nat.max (List.length classes) (List.length instances)))
              index = Ok ex
            /\ nth_error instances (index mod List.length entries)
               = Some (DreamBoothDataset.instance_image ex)
            /\ DreamBoothDataset.class_example ex = Some (c, class_prompt)
            /\ nth_error classes (index mod List.length listing) = Some c).
  { intros index. unfold DreamBoothDataset.getitem.
    cbn [DreamBoothDataset.instance_images_path
         DreamBoothDataset.num_instance_images
         DreamBoothDataset.class_images_path
         DreamBoothDataset.num_class_images DreamBoothDataset.class_prompt
         DreamBoothDataset.instance_prompt
         DreamBoothDataset.image_captions_filename].
    destruct (cyclic_ok instances index Ni) as (x & -> & Hx).
    destruct (cyclic_ok classes index Nc) as (c & -> & Hc).
    cbn [bind]. eexists; exists c. split; [reflexivity|].
    cbn [DreamBoothDataset.instance_image DreamBoothDataset.class_example].
    rewrite <- Li, <- Lc. repeat split; assumption. }
  eexists. split; [reflexivity|].
  cbn [DreamBoothDataset.length]. fold instances classes.
  split; [now rewrite Li, Lc|]. split; [exact G|]. split.
  - intros j x Hj.
    assert (Hlt : (j < List.length instances)%nat)
      by (apply nth_error_Some; congruence).
    split; [lia|].
    destruct (G j) as (ex & c & E & I & _). exists ex. split; [exact E|].
    rewrite <- Li, Nat.mod_small in I by exact Hlt. congruence.
  - intros j c Hj.
    assert (Hlt : (j < List.length classes)%nat)
      by (apply nth_error_Some; congruence).
    split; [lia|].
    destruct (G j) as (ex & c' & E & _ & C & I). exists ex. split; [exact E|].
    rewrite <- Lc, Nat.mod_small in I by exact Hlt. congruence.
Qed.

Lemma DreamBoothDataset_pairs_witness :
  exists d,
    DreamBoothDataset.init "inst" (Some (Dir [("a_1.jpg", File)])) "sks" true
      (Some ("cls", Some (Dir [("0.jpg", File); ("1.jpg", File)])))
      (Some "person") = Ok d
    /\ DreamBoothDataset.length d = 2%nat
    /\ DreamBoothDataset.getitem d 1
       = Ok (DreamBoothDataset.mk_example "inst/a_1.jpg" "a "
               (Some ("cls/1.jpg", Some "person"))).
Proof.
  destruct (DreamBoothDataset_pairs "inst" "cls" "sks" true
              [("a_1.jpg", File)] [("0.jpg", File); ("1.jpg", File)]
              (Some "person") ltac:(discriminate) ltac:(discriminate))
    as (d & E & L & _).
  exists d. split; [exact E|]. split; [exact L|].
  injection E as <-. reflexivity.
Defined.

(** A class directory without entries (or one that [__init__] had to make)
    gives a data set that is as long as the instance images and fails on
    every index: with the instance image at hand, the class image is taken
    at [index % 0]. *)
Theorem DreamBoothDataset_empty_class_dir
    (instance_data_root class_root prompt : string) (captions : bool)
    (entries : list (string * Node)) (at_class_root : option Node)
    (class_prompt : option string) :
  at_class_root = None \/ at_class_root = Some (Dir []) ->
  exists d,
    DreamBoothDataset.init instance_data_root (Some (Dir entries)) prompt
      captions (Some (class_root, at_class_root)) class_prompt = Ok d
    /\ DreamBoothDataset.length d = List.length entries
    /\ forall index,
         DreamBoothDataset.getitem d index = Raise ZeroDivisionError.
Proof.
  intros [-> | ->]; (eexists; split; [reflexivity|]);
    cbn [DreamBoothDataset.length List.length map];
    (split; [now rewrite length_map|]);
    intros index; unfold DreamBoothDataset.getitem;
    cbn [DreamBoothDataset.instance_images_path
         DreamBoothDataset.num_instance_images
         DreamBoothDataset.class_images_path
         DreamBoothDataset.num_class_images];
    (destruct entries as [|e es]; [reflexivity|]);
    destruct (cyclic_ok
                (map (fun x => join instance_data_root (fst x)) (e :: es))
                index ltac:(discriminate)) as (x & -> & _);
    reflexivity.
Qed.

Lemma DreamBoothDataset_empty_class_dir_witness :
  exists d,
    DreamBoothDataset.init "inst" (Some (Dir [("a.jpg", File)])) "sks" false
      (Some ("cls", None)) (Some "person") = Ok d
    /\ DreamBoothDataset.getitem d 0 = Raise ZeroDivisionError.
Proof.
  destruct (DreamBoothDataset_empty_class_dir "inst" "cls" "sks" false
              [("a.jpg", File)] None (Some "person") (or_introl eq_refl))
    as (d & E & _ & G).
  exists d. split; [exact E | apply G].
Defined.

(** ** The running average *)

Lemma AverageMeter_updates_from (l : list (Q * Z)) :
  (forall x, In x l -> (0 < snd x)%Z) ->
  forall m0 : AverageMeter.t,
    (0 <= AverageMeter.count m0)%Z ->
    exists m,
      AverageMeter.updates l m0 = Ok m
      /\ AverageMeter.count m = (AverageMeter.count m0 + total_count l)%Z
      /\ (AverageMeter.sum m == AverageMeter.sum m0 + weighted_sum l)%Q
      /\ (l <> [] ->
          AverageMeter.avg m
          = (AverageMeter.sum m / inject_Z (AverageMeter.count m))%Q).
Proof.
  induction l as [|[val n] r IH]; intros Hpos m0 H0.
  - exists m0. cbn. repeat split; try lia; try ring. congruence.
  - assert (Hn : (0 < n)%Z) by (apply (Hpos (val, n)); now left).
    cbn [AverageMeter.updates]. unfold AverageMeter.update.
    replace (AverageMeter.count m0 + n =? 0)%Z with false
      by (symmetry; apply Z.eqb_neq; lia).
    cbn [bind].
    set (m1 := AverageMeter.mk _ _ _).
    destruct (IH (fun x Hx => Hpos x (or_intror Hx)) m1) as (m & E & C & S & A).
    { unfold m1. cbn [AverageMeter.count]. lia. }
    exists m. split; [exact E|].
    unfold m1 in C, S. cbn [AverageMeter.count AverageMeter.sum] in C, S.
    cbn [total_count weighted_sum fold_right fst snd].
    fold (total_count r). fold (weighted_sum r).
    split; [lia|]. split; [rewrite S; ring|].
    intros _. destruct r as [|y r'].
    + cbn in E. injection E as <-. reflexivity.
    + apply A. discriminate.
Qed.

(** Starting from a reset meter, updates that each bring a positive number
    of values all succeed and leave the weighted mean of all the values:
    [avg] is [sum / count], [sum] is the weighted sum and [count] the
    number of values. *)
Theorem AverageMeter_weighted_mean (l : list (Q * Z)) :
  l <> [] ->
  (forall x, In x l -> (0 < snd x)%Z) ->
  exists m,
    AverageMeter.updates l AverageMeter.reset = Ok m
    /\ AverageMeter.count m = total_count l
    /\ (AverageMeter.sum m == weighted_sum l)%Q
    /\ (AverageMeter.avg m == weighted_sum l / inject_Z (total_count l))%Q.
Proof.
  intros N Hpos.
  destruct (AverageMeter_updates_from l Hpos AverageMeter.reset)
    as (m & E & C & S & A); [cbn; lia|].
  cbn [AverageMeter.reset AverageMeter.count AverageMeter.sum] in C, S.
  exists m. split; [exact E|]. split; [lia|].
  assert (S' : (AverageMeter.sum m == weighted_sum l)%Q) by (rewrite S; ring).
  split; [exact S'|].
  rewrite (A N), S', C. reflexivity.
Qed.

Lemma AverageMeter_weighted_mean_witness :
  exists m,
    AverageMeter.updates [((1 # 2)%Q, 1%Z); (2%Q, 3%Z)] AverageMeter.reset
    = Ok m
    /\ AverageMeter.count m = 4%Z
    /\ (AverageMeter.avg m == 13 # 8)%Q.
Proof.
  destruct (AverageMeter_weighted_mean [((1 # 2)%Q, 1%Z); (2%Q, 3%Z)]
              ltac:(discriminate))
    as (m & E & C & _ & A).
  - intros x [<- | [<- | []]]; cbn; lia.
  - exists m. repeat split; [exact E | exact C |].
    rewrite A. reflexivity.
Defined.



(** ** Generating class images *)

Lemma torch_split_concat {A : Type} (size : nat) :
  (1 <= size)%nat ->
  forall fuel (l : list A),
    (List.length l <= fuel)%nat ->
    List.concat (torch_split fuel size l) = l.
Proof.
  intros Hs. induction fuel as [|f IH]; intros l Hl.
  - destruct l; [reflexivity | cbn in Hl; lia].
  - destruct l as [|a r]; [reflexivity|].
    change (torch_split (S f) size (a :: r))
      with (firstn size (a :: r)
            :: torch_split f size (skipn size (a :: r))).
    cbn [List.concat]. rewrite IH.
    + apply firstn_skipn.
    + rewrite length_skipn. cbn [List.length] in *. lia.
Qed.

Lemma flat_map_map_concat {A B : Type} (g : A -> B) (L : list (list A)) :
  flat_map (fun batch => map g batch) L = map g (List.concat L).
Proof.
  induction L as [|b r IH]; cbn [flat_map List.concat]; [reflexivity|].
  now rewrite map_app, IH.
Qed.

Lemma string_length_app (s t : string) :
  String.length (s ++ t) = (String.length s + String.length t)%nat.
Proof. induction s as [|c r IH]; cbn; [reflexivity | now rewrite IH]. Qed.

Lemma string_app_inv_tail (s1 s2 t : string) :
  s1 ++ t = s2 ++ t -> s1 = s2.
Proof.
  revert s2. induction s1 as [|c r IH]; intros [|d r2] H.
  - reflexivity.
  - apply (f_equal String.length) in H. cbn in H.
    rewrite string_length_app in H. lia.
  - apply (f_equal String.length) in H. cbn in H.
    rewrite string_length_app in H. lia.
  - cbn in H. injection H as -> H. f_equal. now apply IH.
Qed.

Lemma NoDup_map_injective {A B : Type} (f : A -> B) (l : list A) :
  (forall x y, f x = f y -> x = y) -> NoDup l -> NoDup (map f l).
Proof.
  intros Hf H. induction H as [|a r Ha Hr IH]; cbn [map]; constructor.
  - intros Hin. apply in_map_iff in Hin as (y & Hy & Hin).
    apply Hf in Hy. subst y. exact (Ha Hin).
  - exact IH.
Qed.

Lemma new_class_images_NoDup (cur k : nat) : NoDup (new_class_images cur k).
Proof.
  unfold new_class_images. apply NoDup_map_injective; [|apply seq_NoDup].
  intros i j H. apply string_app_inv_tail, str_inj in H. lia.
Qed.

Lemma generate_class_samples_result
    (num_class_images sample_batch_size : Z) (class_prompt : string)
    (existing : list string) :
  (0 < sample_batch_size)%Z ->
  generate_class_samples num_class_images sample_batch_size class_prompt
    existing
  = Ok (new_class_images (List.length existing)
          (Z.to_nat (num_class_images - Z.of_nat (List.length existing)))).
Proof.
  intros Hb. unfold generate_class_samples.
  destruct (Z.leb_spec (num_class_images - Z.of_nat (List.length existing)) 0)
    as [H|H].
  - now replace (Z.to_nat _) with 0%nat by lia.
  - replace (sample_batch_size <=? 0)%Z with false
      by (symmetry; apply Z.leb_gt; exact Hb).
    unfold dataloader_batches. rewrite flat_map_map_concat.
    rewrite torch_split_concat; [reflexivity | lia |].
    now rewrite length_seq.
Qed.

(** [generate_class_samples] writes one file for each image the class
    directory is short of, whatever the batch size: the files are named
    [<cur + j>.jpg] for [j] from 0, in order, with [cur] the number of
    entries the directory has, and no name is used twice.  When none of
    the names is there already the directory ends up with
    [num_class_images] entries. *)
Theorem generate_class_samples_names
    (num_class_images sample_batch_size : Z) (class_prompt : string)
    (existing : list string) :
  (0 < sample_batch_size)%Z ->
  let missing :=
    Z.to_nat (num_class_images - Z.of_nat (List.length existing)) in
  let names := new_class_images (List.length existing) missing in
  generate_class_samples num_class_images sample_batch_size class_prompt
    existing = Ok names
  /\ NoDup names
  /\ List.length names = missing
  /\ ((forall n, In n names -> ~ In n existing) ->
      (Z.of_nat (List.length existing) <= num_class_images)%Z ->
      Z.of_nat (List.length (write_files existing names)) = num_class_images).
Proof.
  intros Hb missing names.
  assert (L : List.length names = missing).
  { unfold names, new_class_images. now rewrite length_map, length_seq. }
  split; [apply generate_class_samples_result, Hb|].
  split; [apply new_class_images_NoDup|]. split; [exact L|].
  intros Hnew Hle. unfold write_files.
  rewrite length_app.
  replace (List.filter _ names) with names.
  - rewrite L. unfold missing. lia.
  - symmetry. apply forallb_filter_id. apply forallb_forall.
    intros n Hn. apply negb_true_iff.
    destruct (existsb (String.eqb n) existing) eqn:E; [|reflexivity].
    exfalso. apply existsb_exists in E as (y & Hy & Ey).
    apply String.eqb_eq in Ey. subst y. exact (Hnew n Hn Hy).
Qed.

Lemma generate_class_samples_names_witness :
  generate_class_samples 5 2 "person" ["a.jpg"; "b.jpg"]
  = Ok ["2.jpg"; "3.jpg"; "4.jpg"].
Proof.
  exact (proj1 (generate_class_samples_names 5 2 "person" ["a.jpg"; "b.jpg"]
                  ltac:(lia))).
Defined.

(** The names are counted from the number of entries, not from the names
    that are there: when one of the names to write is there already, that
    file is written over, and the directory stays short of
    [num_class_images]. *)
Theorem generate_class_samples_overwrites
    (num_class_images sample_batch_size : Z) (class_prompt : string)
    (existing names : list string) (n : string) :
  generate_class_samples num_class_images sample_batch_size class_prompt
    existing = Ok names ->
  (0 < sample_batch_size)%Z ->
  In n names -> In n existing ->
  (Z.of_nat (List.length (write_files existing names)) < num_class_images)%Z.
Proof.
  intros E Hb Hn He.
  pose proof (generate_class_samples_result num_class_images
                sample_batch_size class_prompt existing Hb) as E'.
  rewrite E in E'. injection E' as E'.
  assert (L : List.length
                (new_class_images (List.length existing)
                   (Z.to_nat (num_class_images
                              - Z.of_nat (List.length existing))))
              = Z.to_nat (num_class_images - Z.of_nat (List.length existing))).
  { unfold new_class_images. now rewrite length_map, length_seq. }
  assert (Hm : names <> []) by (intros ->; exact Hn).
  assert (Hlt : (List.length (List.filter
                    (fun x => negb (existsb (String.eqb x) existing)) names)
                 < List.length names)%nat).
  { clear - Hn He. induction names as [|a r IH]; [contradiction|].
    cbn [List.filter List.length].
    destruct Hn as [-> | Hn].
    - replace (existsb (String.eqb n) existing) with true.
      + cbn [negb]. pose proof (filter_length_le
          (fun x => negb (existsb (String.eqb x) existing)) r). lia.
      + symmetry. apply existsb_exists. exists n.
        split; [exact He | apply String.eqb_refl].
    - specialize (IH Hn).
      destruct (negb (existsb (String.eqb a) existing));
        cbn [List.length]; lia. }
  unfold write_files. rewrite length_app.
  rewrite E' in *. rewrite L in Hlt.
  destruct (Z.to_nat (num_class_images - Z.of_nat (List.length existing)))
    eqn:Em; [rewrite <- L in Em; destruct names; [congruence | discriminate]|].
  lia.
Qed.

Lemma generate_class_samples_overwrites_witness :
  (Z.of_nat (List.length (write_files ["1.jpg"] ["1.jpg"])) < 2)%Z.
Proof.
  exact (generate_class_samples_overwrites 2 4 "person" ["1.jpg"] ["1.jpg"]
           "1.jpg" eq_refl ltac:(lia) (or_introl eq_refl) (or_introl eq_refl)).
Defined.
